(** * substance-finder: the statistics pipeline of [processor.py]

    A shallow embedding of [src/processor.py] (the functions [add_substance],
    [_parse_bool], [_find_mapped_column] and [process_df]) and of the places
    of [src/app.py] where the request handler meets [process_df] (the
    parameter dictionary it builds and the chart it draws from the
    statistics), together with the properties of the pipeline that the design
    document states and further ones that the code shows.

    Modelling conventions.
    - A Python [str] is a Rocq [string]; each character stands for one code
      point below 256, and [str.strip], [str.lower] and [str.startswith] are
      given on that range as Python defines them there.
    - A Python value that can sit in a table cell or in the parameter
      dictionary is a [pyval]: [None], a [bool], an [int], a [str], or the
      float NaN that pandas uses for a missing cell.  Other floats are left
      out of cells: their text rendering is not modelled.  Float results
      (percentages, seconds) are rationals, so [round] is exact
      round-half-even on the rational value.
    - A pandas frame is its column labels (strings, in column order, taken
      to be distinct, as [read_csv] delivers them) and its rows; its index is
      positional, which is what [reset_index(drop=True)] produces.
      [astype(str)] renders a null cell as text (nan, None), as pandas does
      on object columns.
    - [value_counts] lists the most frequent value first and leaves values of
      equal count in order of first appearance.
    - An operation that raises in Python returns [Raise] here; [time.time()]
      reads the next value of an explicit clock.
    - [utils.preprocess_data] and [utils.get_matches] are called by
      [add_substance] but are not among the sources: the pipeline takes them
      as parameters, pure and total. *)

From Stdlib Require Import Ascii QArith Qround DecimalString Lqa.
From stdpp Require Import base option list sorting strings gmap.

Close Scope Q_scope.
Local Open Scope stdpp_scope.

(** ** Python strings *)

Module PyStr.

(** [str.isspace] on one code point below 256: TAB..CR, FS..US, space,
    NEL (0x85) and the no-break space (0xA0). *)
Definition isspace (c : ascii) : bool :=
  let n := N_of_ascii c in
  (((9 <=? n) && (n <=? 13)) || ((28 <=? n) && (n <=? 32))
   || (n =? 133) || (n =? 160))%N.

Fixpoint lstrip (s : string) : string :=
  match s with
  | String c r => if isspace c then lstrip r else s
  | EmptyString => EmptyString
  end.

Definition rstrip (s : string) : string :=
  String.rev (lstrip (String.rev s)).

(** [s.strip()] *)
Definition strip (s : string) : string := rstrip (lstrip s).

(** [str.lower] on one code point below 256: A..Z and the Latin-1 capitals
    0xC0..0xDE (the multiplication sign 0xD7 apart) move up by 32. *)
Definition lower_char (c : ascii) : ascii :=
  let n := N_of_ascii c in
  if (((65 <=? n) && (n <=? 90))
      || ((192 <=? n) && (n <=? 222) && negb (n =? 215)))%N
  then ascii_of_N (n + 32) else c.

Fixpoint lower (s : string) : string :=
  match s with
  | String c r => String (lower_char c) (lower r)
  | EmptyString => EmptyString
  end.

(** [s.startswith(p)] *)
Definition startswith (s p : string) : bool := String.prefix p s.

End PyStr.

(** ** Python values, exceptions and results *)

Inductive pyval : Type :=
  | PNone
  | PBool (b : bool)
  | PInt (z : Z)
  | PNaN
  | PStr (s : string).

Global Instance pyval_eq_dec : EqDecision pyval.
Proof. solve_decision. Defined.

(** [str(v)], also what [Series.astype(str)] does to each cell. *)
Definition py_str (v : pyval) : string :=
  match v with
  | PNone => "None"
  | PBool true => "True"
  | PBool false => "False"
  | PInt z => NilZero.string_of_int (Z.to_int z)
  | PNaN => "nan"
  | PStr s => s
  end.

(** [pandas.isna] on one value. *)
Definition isna (v : pyval) : bool :=
  match v with
  | PNone | PNaN => true
  | _ => false
  end.

(** Truth value of [v], as [or] and [if] test it. *)
Definition truthy (v : pyval) : bool :=
  match v with
  | PNone => false
  | PBool b => b
  | PInt z => negb (z =? 0)%Z
  | PNaN => true
  | PStr s => negb (bool_decide (s = ""))
  end.

(** [a or b] *)
Definition py_or (a b : pyval) : pyval := if truthy a then a else b.

Inductive exn : Type :=
  | KeyError (label : string)
  | ZeroDivisionError
  | IndexingError
  | ValueError
  | TypeError.

Inductive result (A : Type) : Type :=
  | Ok (a : A)
  | Raise (e : exn).
Arguments Ok {A} a.
Arguments Raise {A} e.

Global Instance result_ret : MRet result := @Ok.
Global Instance result_bind : MBind result := λ A B f r,
  match r with
  | Ok a => f a
  | Raise e => Raise e
  end.

(** [try: r  except Exception: d] *)
Definition try_except {A} (r : result A) (d : A) : A :=
  match r with
  | Ok a => a
  | Raise _ => d
  end.

(** ** Numbers *)

(** [a / b] on numbers: true division, [ZeroDivisionError] on a zero divisor. *)
Definition py_truediv (a b : Q) : result Q :=
  if Qeq_bool b 0 then Raise ZeroDivisionError else Ok (a / b)%Q.

Definition round_half_even (x : Q) : Z :=
  let f := Qfloor x in
  match (x - inject_Z f ?= 1 # 2)%Q with
  | Lt => f
  | Gt => (f + 1)%Z
  | Eq => if Z.even f then f else (f + 1)%Z
  end.

(** [round(x, ndigits)] *)
Definition py_round (x : Q) (ndigits : nat) : Q :=
  let p := inject_Z (10 ^ Z.of_nat ndigits) in
  Qred (inject_Z (round_half_even (x * p)) / p)%Q.

(** A count as a number. *)
Definition of_nat (n : nat) : Q := inject_Z (Z.of_nat n).

(** [n or 1] on a count. *)
Definition or_1 (n : nat) : nat := if (n =? 0)%nat then 1%nat else n.

(** ** Series and frames *)

Abbreviation Series := (list pyval).

Record DataFrame : Type := mkDataFrame {
  columns : list string;
  rows : list (list pyval);
}.

Global Instance DataFrame_eq_dec : EqDecision DataFrame.
Proof. solve_decision. Defined.

(** [len(df)] *)
Definition df_len (df : DataFrame) : nat := length (rows df).

(** The cell of a row under the column at position [j]; a row that stops
    short reads as NaN there. *)
Definition cell (j : nat) (row : list pyval) : pyval := default PNaN (row !! j).

(** Position of the first column carrying [label]. *)
Fixpoint index_of (label : string) (cols : list string) : option nat :=
  match cols with
  | [] => None
  | c :: cols' =>
      if bool_decide (c = label) then Some 0%nat else S <$> index_of label cols'
  end.

(** [label in df.columns] *)
Definition in_columns (label : pyval) (df : DataFrame) : bool :=
  match label with
  | PStr s => bool_decide (s ∈ columns df)
  | _ => false
  end.

(** [df[label]] *)
Definition df_getitem (df : DataFrame) (label : pyval) : result Series :=
  match label with
  | PStr s =>
      match index_of s (columns df) with
      | Some j => Ok (cell j <$> rows df)
      | None => Raise (KeyError s)
      end
  | _ => Raise (KeyError (py_str label))
  end.

(** [df.reset_index(drop=True)]: the index of a frame is positional already. *)
Definition reset_index (df : DataFrame) : DataFrame := df.

(** Row [i] of [df] at the width of its header; NaN where [df] has no cell. *)
Definition row_at (df : DataFrame) (i : nat) : list pyval :=
  let row := default [] (rows df !! i) in
  (λ j, cell j row) <$> seq 0 (length (columns df)).

(** [pd.concat([a, b], axis=1)] on positional indexes: the union of the two
    indexes, the shorter frame filled with NaN. *)
Definition concat_axis1 (a b : DataFrame) : DataFrame :=
  {| columns := columns a ++ columns b;
     rows := (λ i, row_at a i ++ row_at b i) <$> seq 0 (df_len a `max` df_len b) |}.

(** [s.astype(str)] *)
Definition astype_str (s : Series) : list string := py_str <$> s.

(** [s.str.strip()] *)
Definition str_strip (s : list string) : list string := PyStr.strip <$> s.

(** [s.replace({"": None})] *)
Definition replace_empty_with_None (s : list string) : list (option string) :=
  (λ x, if bool_decide (x = "") then None else Some x) <$> s.

(** [s.dropna()] *)
Definition dropna {A} (s : list (option A)) : list A := omap id s.

(** [s.isna()] *)
Definition series_isna (s : Series) : list bool := isna <$> s.

(** [s == ""] *)
Definition series_eq_empty (s : list string) : list bool :=
  (λ x, bool_decide (x = "")) <$> s.

(** [a | b] on boolean series of one index. *)
Definition series_or (a b : list bool) : list bool := zip_with orb a b.

(** [int(mask.sum())] *)
Definition mask_sum (mask : list bool) : nat := length (filter (λ b, b = true) mask).

(** The entries of [s] at the positions where [mask] holds. *)
Fixpoint select {A} (mask : list bool) (s : list A) : list A :=
  match s, mask with
  | x :: s', b :: mask' => if b then x :: select mask' s' else select mask' s'
  | _, _ => []
  end.

(** [s.loc[mask]] with a boolean series on a positional index: the mask is
    aligned to the index of [s], and a mask that does not cover it is
    refused. *)
Definition loc_mask {A} (mask : list bool) (s : list A) : result (list A) :=
  if (length mask <? length s)%nat then Raise IndexingError
  else Ok (select mask s).

(** The distinct entries of [s], in order of first appearance. *)
Fixpoint distinct (s : list string) : list string :=
  match s with
  | [] => []
  | x :: s' => x :: filter (λ y, y ≠ x) (distinct s')
  end.

(** [s.nunique()] *)
Definition nunique (s : list string) : nat := length (distinct s).

Definition occurrences (x : string) (s : list string) : nat :=
  length (filter (λ y, y = x) s).

Fixpoint insert_desc (p : string * nat) (l : list (string * nat)) : list (string * nat) :=
  match l with
  | [] => [p]
  | q :: l' => if (q.2 <=? p.2)%nat then p :: l else q :: insert_desc p l'
  end.

(** Stable sort on the count, largest first. *)
Definition sort_desc (l : list (string * nat)) : list (string * nat) :=
  foldr insert_desc [] l.

(** [s.value_counts(dropna=True)]: one entry per distinct value with its
    number of occurrences, the most frequent first; values of equal count
    stay in order of first appearance. *)
Definition value_counts (s : list string) : list (string * nat) :=
  sort_desc ((λ x, (x, occurrences x s)) <$> distinct s).

(** [freq.head(n)] *)
Definition series_head {A} (n : nat) (l : list A) : list A := take n l.

(** ** The clock *)

(** The successive readings of [time.time()]. *)
Definition Clock : Type := nat → Q.

Definition time_time (clock : Clock) : Q * Clock :=
  (clock 0%nat, λ n, clock (S n)).

(** ** [_find_mapped_column] *)

Definition _find_mapped_column (df : DataFrame) : option string :=
  if bool_decide ("Mapped_to" ∈ columns df) then Some "Mapped_to"
  else List.find (λ col, PyStr.startswith col "Mapped_to") (columns df).

(** ** [_parse_bool] *)

Definition truthy_words : list string := ["1"; "true"; "yes"; "on"].

Definition _parse_bool (value : pyval) (default : bool) : bool :=
  match value with
  | PNone => default
  | PBool b => b
  | _ =>
      let s := PyStr.lower (PyStr.strip (py_str value)) in
      bool_decide (s ∈ truthy_words)
  end.

(** ** [process_df] *)

Record Stats : Type := mkStats {
  total_rows : nat;
  missing_count : nat;
  missing_pct : Q;
  unique_total_values : nat;
  unique_missing_count : nat;
  unique_missing_pct : Q;
  processing_seconds : Q;
  columns_out : list string;
  mapped_column : option string;
  unique_missing_examples : list (string * nat);
}.

(** [params.get(key, d)] *)
Definition dict_get (params : gmap string pyval) (key : string) (d : pyval) : pyval :=
  default d (params !! key).

Section Pipeline.

(** The builtins [float] and [int]. *)
Variable py_float : pyval → result Q.
Variable py_int : pyval → result Z.

(** [utils.preprocess_data] and [utils.get_matches]: the module [utils] is
    not among the sources, so the two are parameters of the pipeline. *)
Variable preprocess_data : list string → DataFrame.
Variable get_matches : DataFrame → list string → Q → Z → bool → DataFrame.

(** [process_df] passes every argument of [add_substance], so the defaults
    of its signature (0.85, 2, True) never apply. *)
Definition add_substance (col_with_substances col_with_ref_substances : list string)
    (threshold : Q) (max_per_match_id : Z) (only_first_match : bool) : DataFrame :=
  let preprocessed_out := preprocess_data col_with_substances in
  let final_output :=
    get_matches preprocessed_out col_with_ref_substances
      threshold max_per_match_id only_first_match in
  final_output.

(** *** Parse params *)

(** [float(params.get("threshold", 0.85))] under its [try]; the default
    0.85 is a float already. *)
Definition param_threshold (params : gmap string pyval) : Q :=
  try_except
    (match params !! "threshold" with
     | Some v => py_float v
     | None => Ok (85 # 100)%Q
     end)
    (85 # 100)%Q.

(** [int(params.get("max_per_match_id", 2))] under its [try]. *)
Definition param_max_per_match_id (params : gmap string pyval) : Z :=
  try_except
    (match params !! "max_per_match_id" with
     | Some v => py_int v
     | None => Ok 2%Z
     end)
    2%Z.

Definition param_only_first_match (params : gmap string pyval) : bool :=
  _parse_bool (dict_get params "only_first_match" (PBool true)) false.

(** *** Column selection *)

Definition param_substance_col (params : gmap string pyval) : pyval :=
  py_or (dict_get params "substance_col" PNone) (PStr "substance").

Definition param_ref_substance_col (params : gmap string pyval) : pyval :=
  py_or (dict_get params "ref_substance_col" PNone) (PStr "substance").

Definition select_col_series (data_df : DataFrame) (substance_col : pyval)
    : result (list string) :=
  if in_columns substance_col data_df
  then s ← df_getitem data_df substance_col; mret (astype_str s)
  else mret (replicate (df_len data_df) "").

Definition select_ref_series (ref_df : DataFrame) (ref_substance_col : pyval)
    : result (list string) :=
  if in_columns ref_substance_col ref_df
  then s ← df_getitem ref_df ref_substance_col; mret (astype_str s)
  else mret [].

(** *** Missing mask *)

Definition missing_mask_of (match_reset : DataFrame) (mapped_col : option string)
    (total_rows : nat) : result (list bool) :=
  match mapped_col with
  | None => mret (replicate total_rows true)
  | Some c =>
      s ← df_getitem match_reset (PStr c);
      mret (series_or (series_isna s)
              (series_eq_empty (str_strip (astype_str s))))
  end.

Definition missing_pct_of (missing_count total_rows : nat) : result Q :=
  if (0 <? total_rows)%nat
  then q ← py_truediv (of_nat missing_count) (of_nat total_rows);
       mret (py_round (q * 100) 2)
  else mret 0%Q.

(** *** Distinct values and the most frequent missing inputs *)

(** [(unique_total, unique_missing_count, unique_missing_pct,
      unique_missing_examples)] *)
Definition distinct_metrics (match_reset : DataFrame) (missing_mask : list bool)
    (missing_count total_rows : nat)
    : result (nat * nat * Q * list (string * nat)) :=
  if bool_decide ("Original" ∈ columns match_reset) then
    original ← df_getitem match_reset (PStr "Original");
    selected ← loc_mask missing_mask original;
    let original_missing :=
      dropna (replace_empty_with_None (str_strip (astype_str selected))) in
    let unique_missing_examples :=
      match original_missing with
      | [] => []
      | _ :: _ =>
          let freq := value_counts original_missing in
          let top20 := series_head 20 freq in
          top20
      end in
    let original_all :=
      dropna (replace_empty_with_None (str_strip (astype_str original))) in
    let unique_total := nunique original_all in
    let unique_missing_count := nunique original_missing in
    q ← py_truediv (of_nat unique_missing_count) (of_nat (or_1 unique_total));
    let unique_missing_pct := py_round (q * 100) 2 in
    mret (unique_total, unique_missing_count, unique_missing_pct,
          unique_missing_examples)
  else
    let unique_total := 0%nat in
    let unique_missing_count := missing_count in
    q ← py_truediv (of_nat unique_missing_count) (of_nat (or_1 total_rows));
    let unique_missing_pct := py_round (q * 100) 2 in
    mret (unique_total, unique_missing_count, unique_missing_pct, []).

(** *** The pipeline *)

Definition process_df (data_df ref_df : DataFrame) (params : gmap string pyval)
    (clock : Clock) : result (DataFrame * Stats * Clock) :=
  let '(start, clock) := time_time clock in
  let threshold := param_threshold params in
  let max_per_match_id := param_max_per_match_id params in
  let only_first_match := param_only_first_match params in
  let substance_col := param_substance_col params in
  let ref_substance_col := param_ref_substance_col params in
  col_series ← select_col_series data_df substance_col;
  ref_series ← select_ref_series ref_df ref_substance_col;
  let match_df :=
    add_substance col_series ref_series threshold max_per_match_id
      only_first_match in
  let data_reset := reset_index data_df in
  let match_reset := reset_index match_df in
  let combined := concat_axis1 data_reset match_reset in
  let mapped_col := _find_mapped_column match_reset in
  let total_rows := df_len combined in
  missing_mask ← missing_mask_of match_reset mapped_col total_rows;
  let missing_count := mask_sum missing_mask in
  missing_pct ← missing_pct_of missing_count total_rows;
  '(unique_total, unique_missing_count, unique_missing_pct,
    unique_missing_examples) ←
    distinct_metrics match_reset missing_mask missing_count total_rows;
  let '(stop, clock) := time_time clock in
  let processing_seconds := py_round (stop - start) 4 in
  let stats :=
    {| total_rows := total_rows;
       missing_count := missing_count;
       missing_pct := missing_pct;
       unique_total_values := unique_total;
       unique_missing_count := unique_missing_count;
       unique_missing_pct := unique_missing_pct;
       processing_seconds := processing_seconds;
       columns_out := columns match_df;
       mapped_column := mapped_col;
       unique_missing_examples := unique_missing_examples |} in
  mret (match_df, stats, clock).

End Pipeline.

(** ** Concrete collaborators, for running the pipeline *)

Module Run.

Fixpoint digits (s : string) (acc : N) : option N :=
  match s with
  | EmptyString => Some acc
  | String c r =>
      match Ascii.is_nat c with
      | Some d => digits r (acc * 10 + N.of_nat d)%N
      | None => None
      end
  end.

(** Unsigned decimal text, blanks around it allowed: [" 12 "]. *)
Definition natural (s : string) : option N :=
  match PyStr.strip s with
  | EmptyString => None
  | t => digits t 0%N
  end.

(** A reader for [int]: [None], NaN, booleans, integers and unsigned
    decimal text.  It is stricter than the builtin, which also reads signs
    and digit separators; it refuses such text. *)
Definition int_plain (v : pyval) : result Z :=
  match v with
  | PNone => Raise TypeError
  | PNaN => Raise ValueError
  | PBool b => Ok (if b then 1 else 0)%Z
  | PInt z => Ok z
  | PStr s =>
      match natural s with
      | Some n => Ok (Z.of_N n)
      | None => Raise ValueError
      end
  end.

(** A reader for [float] on the same values; text may carry one decimal
    point between digits, as in 0.85.  Stricter than the builtin as well. *)
Definition float_plain (v : pyval) : result Q :=
  match v with
  | PNone => Raise TypeError
  | PNaN => Raise ValueError
  | PBool b => Ok (if b then 1 else 0)%Q
  | PInt z => Ok (inject_Z z)
  | PStr s =>
      match String.index 0 "." (PyStr.strip s) with
      | None =>
          match natural s with
          | Some n => Ok (inject_Z (Z.of_N n))
          | None => Raise ValueError
          end
      | Some i =>
          let t := PyStr.strip s in
          let whole := String.substring 0 i t in
          let part := String.substring (S i) (String.length t - S i) t in
          match digits whole 0%N, digits part 0%N with
          | Some a, Some b =>
              if bool_decide (whole = "") || bool_decide (part = "")
              then Raise ValueError
              else
                let p := (10 ^ Z.of_nat (String.length part))%Z in
                Ok (Qred (inject_Z (Z.of_N a * p + Z.of_N b) / inject_Z p))%Q
          | _, _ => Raise ValueError
          end
      end
  end.

(** A preprocessing step that keeps the raw and the stripped, lower-cased
    text of each input. *)
Definition preprocess_plain (col : list string) : DataFrame :=
  {| columns := ["Original"; "Preprocessed"];
     rows := (λ s, [PStr s; PStr (PyStr.lower (PyStr.strip s))]) <$> col |}.

(** A matcher that answers with a table fixed in advance, whatever it is
    asked. *)
Definition fixed_matches (table : DataFrame)
    (pre : DataFrame) (ref : list string) (threshold : Q)
    (max_per_match_id : Z) (only_first_match : bool) : DataFrame := table.

(** A matcher that reports the flag it was called with, one row per input. *)
Definition echo_flag_matches
    (pre : DataFrame) (ref : list string) (threshold : Q)
    (max_per_match_id : Z) (only_first_match : bool) : DataFrame :=
  {| columns := ["Original"; "only_first_match"];
     rows := (λ r, [cell 0 r; PBool only_first_match]) <$> rows pre |}.

(** The pipeline over a fixed match table. *)
Definition process_fixed (table : DataFrame) :=
  process_df float_plain int_plain preprocess_plain (fixed_matches table).

Definition clock_from (t0 step : Q) : Clock := λ n, (t0 + of_nat n * step)%Q.

Definition subject : DataFrame :=
  {| columns := ["id"; "substance"];
     rows := [[PInt 1; PStr "Aspirin"]; [PInt 2; PStr "Paracetamol "];
              [PInt 3; PNaN]; [PInt 4; PStr "asprin"]] |}.

Definition reference : DataFrame :=
  {| columns := ["substance"];
     rows := [[PStr "Aspirin"]; [PStr "Paracetamol"]] |}.

(** A match table in the wide layout, first candidate only; the scores, of
    which [process_df] reads nothing, are written as integers. *)
Definition table_single : DataFrame :=
  {| columns := ["Original"; "Preprocessed"; "Mapped_to"; "Score"];
     rows := [[PStr "Aspirin"; PStr "aspirin"; PStr "Aspirin"; PInt 1];
              [PStr "Paracetamol "; PStr "paracetamol"; PStr "Paracetamol"; PInt 1];
              [PStr "nan"; PStr "nan"; PNaN; PNaN];
              [PStr "asprin"; PStr "asprin"; PStr " "; PNaN]] |}.

(** The table and the statistics of a call that returned. *)
Definition outcome (r : result (DataFrame * Stats * Clock))
    : option (DataFrame * Stats) :=
  match r with
  | Ok (match_df, stats, _) => Some (match_df, stats)
  | Raise _ => None
  end.



End Run.

(** ** The request handler of [app.py], where it meets [process_df] *)

Module App.

(** [request.form.get(key, d)] on the submitted form fields. *)
Definition form_get (form : gmap string string) (key d : string) : string :=
  default d (form !! key).

(** [s or d] on text. *)
Definition str_or (s d : string) : string :=
  if bool_decide (s = "") then d else s.

(** The [params] dictionary that [process] hands to [process_df]. *)
Definition process_params (form : gmap string string) : gmap string pyval :=
  let substance_col :=
    str_or (PyStr.strip (form_get form "substance_col" "Bezeichnung"))
      "Bezeichnung" in
  let ref_substance_col :=
    str_or (PyStr.strip (form_get form "ref_substance_col" "Substanz"))
      "Substanz" in
  let threshold := PyStr.strip (form_get form "threshold" "0.85") in
  let max_per_match_id := PyStr.strip (form_get form "max_per_match_id" "2") in
  let only_first_match := form !! "only_first_match" in
  <["substance_col" := PStr substance_col]>
    (<["ref_substance_col" := PStr ref_substance_col]>
       (<["threshold" := PStr threshold]>
          (<["max_per_match_id" := PStr max_per_match_id]>
             (<["only_first_match" :=
                  PStr (if only_first_match is Some _ then "true" else "false")]>
                ∅)))).

(** The two bars of the chart, [values = [found, missing]]; the statistics
    of [process_df] always carry both keys that [stats.get] reads. *)
Definition chart_values (stats : Stats) : list Z :=
  let found := (Z.of_nat (total_rows stats) - Z.of_nat (missing_count stats))%Z in
  let missing := Z.of_nat (missing_count stats) in
  let values := [found; missing] in
  values.

(** [max(values) if values else 1] *)
Definition chart_ymax (values : list Z) : Z :=
  match values with
  | [] => 1%Z
  | v :: rest => foldl Z.max v rest
  end.

(** The upper end of the y axis, [ymax * 1.2 + 1]. *)
Definition chart_ylim (values : list Z) : Q :=
  (inject_Z (chart_ymax values) * (12 # 10) + 1)%Q.

End App.

(** * Vocabulary of the properties *)

(** A cell that counts as missing: null, or blank once rendered as text and
    stripped. *)
Definition missing_cell (v : pyval) : Prop :=
  isna v = true ∨ PyStr.strip (py_str v) = "".

Global Instance missing_cell_dec (v : pyval) : Decision (missing_cell v).
Proof. unfold missing_cell. apply _. Defined.

(** The mask that [missing_mask_of] computes over a found column. *)
Definition column_mask (s : Series) : list bool :=
  series_or (series_isna s) (series_eq_empty (str_strip (astype_str s))).

(** The stripped text of the cells of column [j], row by row. *)
Definition row_texts (m : DataFrame) (j : nat) : list string :=
  (λ row, PyStr.strip (py_str (cell j row))) <$> rows m.

(** The same, over the rows that [mask] marks. *)
Definition marked_texts (m : DataFrame) (mask : list bool) (j : nat) : list string :=
  (λ row, PyStr.strip (py_str (cell j row))) <$> select mask (rows m).

(** [p] may stand before [q] in a ranking: its count is not smaller. *)
Definition by_count_desc (p q : string * nat) : Prop := q.2 ≤ p.2.

(** The keys of [params] that [process_df] reads. *)
Definition keys_read : list string :=
  ["threshold"; "max_per_match_id"; "only_first_match"; "substance_col";
   "ref_substance_col"].

(** A text of whitespace only. *)
Fixpoint blank (s : string) : bool :=
  match s with
  | EmptyString => true
  | String c r => PyStr.isspace c && blank r
  end.

(** [stats] with another value of [processing_seconds]. *)
Definition with_seconds (seconds : Q) (stats : Stats) : Stats :=
  {| total_rows := total_rows stats;
     missing_count := missing_count stats;
     missing_pct := missing_pct stats;
     unique_total_values := unique_total_values stats;
     unique_missing_count := unique_missing_count stats;
     unique_missing_pct := unique_missing_pct stats;
     processing_seconds := seconds;
     columns_out := columns_out stats;
     mapped_column := mapped_column stats;
     unique_missing_examples := unique_missing_examples stats |}.

Section Trace.

Context (py_float : pyval → result Q) (py_int : pyval → result Z)
        (preprocess_data : list string → DataFrame)
        (get_matches : DataFrame → list string → Q → Z → bool → DataFrame).

(** The steps of one call, each with the value it produced. *)
Inductive steps (data_df ref_df : DataFrame) (params : gmap string pyval)
    (clock : Clock) (match_df : DataFrame) (stats : Stats) (clock' : Clock)
    : Prop :=
  Steps (col_series ref_series : list string) (missing_mask : list bool)
    (step_col :
       select_col_series data_df (param_substance_col params) = Ok col_series)
    (step_ref :
       select_ref_series ref_df (param_ref_substance_col params)
       = Ok ref_series)
    (step_match :
       match_df
       = add_substance preprocess_data get_matches col_series ref_series
           (param_threshold py_float params)
           (param_max_per_match_id py_int params)
           (param_only_first_match params))
    (step_total : total_rows stats = df_len (concat_axis1 data_df match_df))
    (step_mapped : mapped_column stats = _find_mapped_column match_df)
    (step_mask :
       missing_mask_of match_df (mapped_column stats) (total_rows stats)
       = Ok missing_mask)
    (step_count : missing_count stats = mask_sum missing_mask)
    (step_pct :
       missing_pct_of (missing_count stats) (total_rows stats)
       = Ok (missing_pct stats))
    (step_distinct :
       distinct_metrics match_df missing_mask (missing_count stats)
         (total_rows stats)
       = Ok (unique_total_values stats, unique_missing_count stats,
             unique_missing_pct stats, unique_missing_examples stats))
    (step_seconds :
       processing_seconds stats = py_round (clock 1%nat - clock 0%nat) 4)
    (step_columns : columns_out stats = columns match_df)
    (step_clock : clock' = λ n, clock (S (S n))).

End Trace.

(** * Properties *)

(** ** Lists, masks and columns *)

Lemma index_of_elem (label : string) (cols : list string) :
  label ∈ cols → is_Some (index_of label cols).
Proof.
  induction cols as [|c cols IH]; intros Hin.
  - by apply elem_of_nil in Hin.
  - simpl. case_bool_decide as Hc; [by eexists|].
    apply elem_of_cons in Hin as [->|Hin]; [done|].
    destruct (IH Hin) as [j ->]. by eexists.
Qed.

Lemma index_of_lt (label : string) (cols : list string) (j : nat) :
  index_of label cols = Some j → cols !! j = Some label.
Proof.
  revert j. induction cols as [|c cols IH]; intros j; simpl; [done|].
  case_bool_decide as Hc.
  - intros [= <-]. by subst.
  - destruct (index_of label cols) as [i|]; [|done].
    intros [= <-]. by apply IH.
Qed.

Lemma df_getitem_in (df : DataFrame) (label : pyval) :
  in_columns label df = true → is_Some (index_of (py_str label) (columns df)).
Proof.
  destruct label; simpl; try done.
  intros H%bool_decide_eq_true. by apply index_of_elem.
Qed.

Lemma df_getitem_ok (df : DataFrame) (label : pyval) :
  in_columns label df = true →
  ∃ j, index_of (py_str label) (columns df) = Some j
       ∧ df_getitem df label = Ok (cell j <$> rows df).
Proof.
  intros Hin. destruct (df_getitem_in _ _ Hin) as [j Hj].
  exists j. split; [done|].
  destruct label; simpl in *; try done. by rewrite Hj.
Qed.

Lemma find_mapped_column_elem (df : DataFrame) (c : string) :
  _find_mapped_column df = Some c → c ∈ columns df.
Proof.
  unfold _find_mapped_column. case_bool_decide as Hm.
  - by intros [= <-].
  - intros Hf%find_some. apply list_elem_of_In. tauto.
Qed.

Lemma concat_axis1_len (a b : DataFrame) :
  df_len (concat_axis1 a b) = df_len a `max` df_len b.
Proof. unfold df_len at 1. simpl. by rewrite length_fmap, length_seq. Qed.

Lemma mask_sum_replicate_true (n : nat) : mask_sum (replicate n true) = n.
Proof.
  unfold mask_sum. induction n as [|n IH]; [done|].
  cbn [replicate]. rewrite filter_cons_True by done.
  cbn [length]. by f_equal.
Qed.

Lemma py_truediv_pos (a : Q) (n : nat) :
  (0 < n)%nat → py_truediv a (of_nat n) = Ok (a / of_nat n)%Q.
Proof.
  intros Hn. unfold py_truediv.
  destruct (Qeq_bool (of_nat n) 0) eqn:Hz; [|done].
  apply Qeq_bool_eq in Hz. unfold Qeq, of_nat in Hz. simpl in Hz. lia.
Qed.

Lemma or_1_pos (n : nat) : (0 < or_1 n)%nat.
Proof. unfold or_1. destruct n; simpl; lia. Qed.


(** ** The blocks of [process_df] return *)

Lemma select_col_series_present (data_df : DataFrame) (c : pyval) :
  in_columns c data_df = true →
  ∃ j, index_of (py_str c) (columns data_df) = Some j
       ∧ select_col_series data_df c = Ok (astype_str (cell j <$> rows data_df)).
Proof.
  intros Hin. destruct (df_getitem_ok _ _ Hin) as (j & Hj & Hget).
  exists j. split; [done|].
  unfold select_col_series. by rewrite Hin, Hget.
Qed.

Lemma select_col_series_absent (data_df : DataFrame) (c : pyval) :
  in_columns c data_df = false →
  select_col_series data_df c = Ok (replicate (df_len data_df) "").
Proof. intros Hin. unfold select_col_series. by rewrite Hin. Qed.

Lemma select_ref_series_present (ref_df : DataFrame) (c : pyval) :
  in_columns c ref_df = true →
  ∃ j, index_of (py_str c) (columns ref_df) = Some j
       ∧ select_ref_series ref_df c = Ok (astype_str (cell j <$> rows ref_df)).
Proof.
  intros Hin. destruct (df_getitem_ok _ _ Hin) as (j & Hj & Hget).
  exists j. split; [done|].
  unfold select_ref_series. by rewrite Hin, Hget.
Qed.

Lemma select_ref_series_absent (ref_df : DataFrame) (c : pyval) :
  in_columns c ref_df = false → select_ref_series ref_df c = Ok [].
Proof. intros Hin. unfold select_ref_series. by rewrite Hin. Qed.

Lemma select_col_series_total (data_df : DataFrame) (c : pyval) :
  ∃ s, select_col_series data_df c = Ok s.
Proof.
  destruct (in_columns c data_df) eqn:Hin.
  - destruct (select_col_series_present _ _ Hin) as (j & _ & ->). by eexists.
  - rewrite (select_col_series_absent _ _ Hin). by eexists.
Qed.

Lemma select_ref_series_total (ref_df : DataFrame) (c : pyval) :
  ∃ s, select_ref_series ref_df c = Ok s.
Proof.
  destruct (in_columns c ref_df) eqn:Hin.
  - destruct (select_ref_series_present _ _ Hin) as (j & _ & ->). by eexists.
  - rewrite (select_ref_series_absent _ _ Hin). by eexists.
Qed.

Lemma column_mask_length (s : Series) : length (column_mask s) = length s.
Proof.
  unfold column_mask, series_or, series_isna, series_eq_empty, str_strip, astype_str.
  rewrite length_zip_with, !length_fmap. lia.
Qed.

Lemma missing_mask_of_found (m : DataFrame) (c : string) (total : nat) :
  _find_mapped_column m = Some c →
  ∃ j, index_of c (columns m) = Some j
       ∧ missing_mask_of m (Some c) total = Ok (column_mask (cell j <$> rows m)).
Proof.
  intros Hc%find_mapped_column_elem.
  destruct (df_getitem_ok m (PStr c)) as (j & Hj & Hget).
  { simpl. by apply bool_decide_eq_true. }
  exists j. split; [done|]. unfold missing_mask_of. by rewrite Hget.
Qed.

Lemma missing_mask_of_total (m : DataFrame) (total : nat) :
  df_len m ≤ total →
  ∃ mask, missing_mask_of m (_find_mapped_column m) total = Ok mask
          ∧ df_len m ≤ length mask.
Proof.
  intros Hle. destruct (_find_mapped_column m) as [c|] eqn:Hc.
  - destruct (missing_mask_of_found m c total Hc) as (j & _ & ->).
    eexists. split; [done|].
    rewrite column_mask_length, length_fmap. done.
  - eexists. split; [done|]. by rewrite length_replicate.
Qed.

Lemma missing_pct_of_total (missing_count total : nat) :
  ∃ q, missing_pct_of missing_count total = Ok q.
Proof.
  unfold missing_pct_of. destruct (0 <? total)%nat eqn:Hpos; [|by eexists].
  apply Nat.ltb_lt in Hpos. rewrite py_truediv_pos by done. by eexists.
Qed.

Lemma loc_mask_covering {A} (mask : list bool) (s : list A) :
  length s ≤ length mask → loc_mask mask s = Ok (select mask s).
Proof.
  intros Hle. unfold loc_mask.
  destruct (length mask <? length s)%nat eqn:Hlt; [|done].
  apply Nat.ltb_lt in Hlt. lia.
Qed.

Lemma distinct_metrics_total (m : DataFrame) (mask : list bool) (mc total : nat) :
  df_len m ≤ length mask →
  ∃ r, distinct_metrics m mask mc total = Ok r.
Proof.
  intros Hle. unfold distinct_metrics. case_bool_decide as Ho.
  - destruct (df_getitem_ok m (PStr "Original")) as (j & _ & ->).
    { simpl. by apply bool_decide_eq_true. }
    simpl. rewrite loc_mask_covering by (by rewrite length_fmap).
    simpl. rewrite py_truediv_pos by apply or_1_pos. by eexists.
  - rewrite py_truediv_pos by apply or_1_pos. by eexists.
Qed.

(** ** What a run of [process_df] consists of *)

Ltac bind_ok H :=
  match type of H with
  | mbind _ ?m = Ok _ =>
      let E := fresh "E" in
      destruct m eqn:E; [cbn [mbind result_bind] in H | discriminate H]
  end.

Section Runs.

Context (py_float : pyval → result Q) (py_int : pyval → result Z)
        (preprocess_data : list string → DataFrame)
        (get_matches : DataFrame → list string → Q → Z → bool → DataFrame).

Local Abbreviation run :=
  (process_df py_float py_int preprocess_data get_matches).

Lemma process_df_steps data_df ref_df params clock match_df stats clock' :
  run data_df ref_df params clock = Ok (match_df, stats, clock') →
  steps py_float py_int preprocess_data get_matches
    data_df ref_df params clock match_df stats clock'.
Proof.
  unfold process_df, time_time, reset_index. intros H.
  do 5 bind_ok H.
  match type of H with
  | context [match ?r with pair _ _ => _ end] =>
      destruct r as [[[ut umc] ump] ex]
  end.
  cbn [mret result_ret] in H.
  injection H as <- <- <-.
  by econstructor.
Qed.

Lemma process_df_returns data_df ref_df params clock :
  ∃ match_df stats clock',
    run data_df ref_df params clock = Ok (match_df, stats, clock').
Proof.
  unfold process_df, time_time, reset_index.
  destruct (select_col_series_total data_df (param_substance_col params))
    as [cs ->].
  destruct (select_ref_series_total ref_df (param_ref_substance_col params))
    as [rs ->].
  cbn [mbind result_bind].
  set (m := add_substance _ _ _ _ _ _ _).
  destruct (missing_mask_of_total m (df_len (concat_axis1 data_df m)))
    as (mask & -> & Hmask).
  { rewrite concat_axis1_len. lia. }
  cbn [mbind result_bind].
  destruct (missing_pct_of_total (mask_sum mask) (df_len (concat_axis1 data_df m)))
    as [mp ->].
  cbn [mbind result_bind].
  destruct (distinct_metrics_total m mask (mask_sum mask)
              (df_len (concat_axis1 data_df m)) Hmask)
    as ([[[ut umc] ump] ex] & ->).
  cbn [mbind result_bind mret result_ret].
  by eexists _, _, _.
Qed.

End Runs.

(** ** [_parse_bool] *)

Lemma elem_of_truthy_words (s : string) :
  s ∈ truthy_words ↔ s = "1" ∨ s = "true" ∨ s = "yes" ∨ s = "on".
Proof.
  unfold truthy_words. rewrite !elem_of_cons, elem_of_nil. tauto.
Qed.

(** C10: [_parse_bool] hands back a boolean as it is and the default for
    [None]; on any other value it answers true exactly when the text of the
    value, stripped and lower-cased, is one of 1, true, yes, on, and false
    otherwise (so for y, t and TRUE!).  It is a total function: no value makes
    it raise. *)
Theorem parse_bool_spec (value : pyval) (default : bool) :
  (value = PNone → _parse_bool value default = default)
  ∧ (∀ b, value = PBool b → _parse_bool value default = b)
  ∧ (value ≠ PNone → (∀ b, value ≠ PBool b) →
     let s := PyStr.lower (PyStr.strip (py_str value)) in
     (_parse_bool value default = true
      ↔ s = "1" ∨ s = "true" ∨ s = "yes" ∨ s = "on")
     ∧ (_parse_bool value default = false
        ↔ ¬ (s = "1" ∨ s = "true" ∨ s = "yes" ∨ s = "on")))
  ∧ _parse_bool (PStr "y") default = false
  ∧ _parse_bool (PStr "t") default = false
  ∧ _parse_bool (PStr "TRUE!") default = false.
Proof.
  split; [by intros ->|].
  split; [by intros b ->|].
  split; [|by repeat split].
  intros Hnone Hbool s.
  assert (_parse_bool value default = bool_decide (s ∈ truthy_words)) as ->.
  { destruct value; try done. by destruct (Hbool b). }
  rewrite <- elem_of_truthy_words. split.
  - apply bool_decide_eq_true.
  - apply bool_decide_eq_false.
Qed.

(** ** Mapped-column discovery, missing rows and their share *)

Lemma find_first {A} (f : A → bool) (pre post : list A) (c : A) :
  Forall (λ x, f x = false) pre → f c = true →
  List.find f (pre ++ c :: post) = Some c.
Proof.
  induction 1 as [|x pre Hx _ IH]; intros Hc; simpl.
  - by rewrite Hc.
  - rewrite Hx. by apply IH.
Qed.

Lemma find_nowhere {A} (f : A → bool) (l : list A) :
  Forall (λ x, f x = false) l → List.find f l = None.
Proof. induction 1 as [|x l Hx _ IH]; simpl; [done|]. by rewrite Hx. Qed.

Lemma missing_cell_bool (v : pyval) :
  isna v || bool_decide (PyStr.strip (py_str v) = "")
  = bool_decide (missing_cell v).
Proof.
  destruct (decide (missing_cell v)) as [Hm|Hm].
  - rewrite (bool_decide_eq_true_2 _ Hm). apply orb_true_iff.
    destruct Hm as [Hna|Hblank]; [by left|right].
    by apply bool_decide_eq_true.
  - rewrite (bool_decide_eq_false_2 _ Hm). apply orb_false_iff. split.
    + destruct (isna v) eqn:Hna; [|done]. destruct Hm. by left.
    + apply bool_decide_eq_false. intros Hblank. destruct Hm. by right.
Qed.

Lemma column_mask_cons (v : pyval) (s : Series) :
  column_mask (v :: s) = bool_decide (missing_cell v) :: column_mask s.
Proof.
  unfold column_mask, series_or, series_isna, series_eq_empty, str_strip,
    astype_str.
  rewrite !fmap_cons. cbn [zip_with]. by rewrite missing_cell_bool.
Qed.

Lemma column_mask_lookup (s : Series) (i : nat) (v : pyval) :
  s !! i = Some v →
  column_mask s !! i = Some (bool_decide (missing_cell v)).
Proof.
  revert i. induction s as [|x s IH]; intros i; [done|].
  rewrite column_mask_cons. destruct i as [|i]; simpl.
  - by intros [= ->].
  - apply IH.
Qed.

Lemma column_mask_sum (s : Series) :
  mask_sum (column_mask s) = length (filter missing_cell s).
Proof.
  unfold mask_sum. induction s as [|v s IH]; [done|].
  rewrite column_mask_cons.
  destruct (decide (missing_cell v)) as [Hm|Hm].
  - rewrite (filter_cons_True missing_cell) by done.
    rewrite filter_cons_True by (by apply bool_decide_eq_true).
    simpl. by f_equal.
  - rewrite (filter_cons_False missing_cell) by done.
    rewrite filter_cons_False; [done|].
    by rewrite bool_decide_eq_false_2.
Qed.

Lemma filter_Forall_id {A} (P : A → Prop) `{!∀ x, Decision (P x)} (l : list A) :
  Forall P l → filter P l = l.
Proof.
  induction 1 as [|x l Hx _ IH]; [done|].
  rewrite filter_cons_True by done. by f_equal.
Qed.

Lemma column_mask_marks (l : list (list pyval)) (j i : nat) (row : list pyval) :
  l !! i = Some row →
  column_mask (cell j <$> l) !! i = Some true ↔ missing_cell (cell j row).
Proof.
  intros Hrow.
  rewrite (column_mask_lookup _ i (cell j row))
    by (by rewrite list_lookup_fmap, Hrow).
  split.
  - intros [= Hb]. by apply bool_decide_eq_true in Hb.
  - intros Hm. f_equal. by apply bool_decide_eq_true.
Qed.

Lemma column_mask_rows_sum (l : list (list pyval)) (j : nat) :
  mask_sum (column_mask (cell j <$> l))
  = length (filter (λ row, missing_cell (cell j row)) l).
Proof.
  rewrite column_mask_sum. induction l as [|row l IH]; [done|].
  rewrite fmap_cons.
  destruct (decide (missing_cell (cell j row))) as [Hm|Hm].
  - rewrite !filter_cons_True by done. simpl. by f_equal.
  - by rewrite !filter_cons_False by done.
Qed.

Section Discovery.

Context (py_float : pyval → result Q) (py_int : pyval → result Z)
        (preprocess_data : list string → DataFrame)
        (get_matches : DataFrame → list string → Q → Z → bool → DataFrame).

Local Abbreviation run :=
  (process_df py_float py_int preprocess_data get_matches).

(** C3: on any table, [_find_mapped_column] answers [Mapped_to] when a
    column has exactly that name; failing that, the first column in column
    order whose name starts with [Mapped_to]; and [None] when no column
    does.  [process_df] reports that answer, and when it is [None] it counts
    every row as missing: [missing_count] is [total_rows], which covers the
    rows of the match table. *)
Theorem mapped_column_discovery :
  (∀ df : DataFrame,
     ("Mapped_to" ∈ columns df → _find_mapped_column df = Some "Mapped_to")
     ∧ ("Mapped_to" ∉ columns df →
        ∀ pre c post,
          columns df = pre ++ c :: post →
          Forall (λ x, PyStr.startswith x "Mapped_to" = false) pre →
          PyStr.startswith c "Mapped_to" = true →
          _find_mapped_column df = Some c)
     ∧ (Forall (λ x, PyStr.startswith x "Mapped_to" = false) (columns df) →
        _find_mapped_column df = None))
  ∧ (∀ data_df ref_df params clock,
       ∃ match_df stats clock',
         run data_df ref_df params clock = Ok (match_df, stats, clock')
         ∧ mapped_column stats = _find_mapped_column match_df
         ∧ (_find_mapped_column match_df = None →
            missing_count stats = total_rows stats
            ∧ df_len match_df ≤ missing_count stats)).
Proof.
  split.
  - intros df. unfold _find_mapped_column. repeat split.
    + intros Hin. by rewrite bool_decide_eq_true_2.
    + intros Hnot pre c post Hcols Hpre Hc.
      rewrite bool_decide_eq_false_2 by done.
      rewrite Hcols. by apply find_first.
    + intros Hall. case_bool_decide as Hin.
      * rewrite Forall_forall in Hall. by specialize (Hall _ Hin).
      * by apply find_nowhere.
  - intros data_df ref_df params clock.
    destruct (process_df_returns py_float py_int preprocess_data get_matches
                data_df ref_df params clock) as (m & st & c' & Hrun).
    exists m, st, c'. split; [done|].
    destruct (process_df_steps _ _ _ _ _ _ _ _ _ _ _ Hrun).
    split; [done|]. intros Hnone.
    rewrite step_mapped, Hnone in step_mask. injection step_mask as <-.
    rewrite step_count, mask_sum_replicate_true. split; [done|].
    rewrite step_total, concat_axis1_len. lia.
Qed.

(** C4: with a mapped column found, the mask of [process_df] marks a row
    exactly when the cell of that column is null or blank after rendering
    and stripping, and [missing_count] is the number of such rows of the
    match table. *)
Theorem missing_detection data_df ref_df params clock :
  ∃ match_df stats clock',
    run data_df ref_df params clock = Ok (match_df, stats, clock')
    ∧ ∀ c, mapped_column stats = Some c →
        ∃ j mask,
          index_of c (columns match_df) = Some j
          ∧ missing_mask_of match_df (Some c) (total_rows stats) = Ok mask
          ∧ length mask = df_len match_df
          ∧ (∀ i row, rows match_df !! i = Some row →
               (mask !! i = Some true ↔ missing_cell (cell j row)))
          ∧ missing_count stats = mask_sum mask
          ∧ missing_count stats
            = length (filter (λ row, missing_cell (cell j row)) (rows match_df)).
Proof.
  destruct (process_df_returns py_float py_int preprocess_data get_matches
              data_df ref_df params clock) as (m & st & c' & Hrun).
  exists m, st, c'. split; [done|].
  destruct (process_df_steps _ _ _ _ _ _ _ _ _ _ _ Hrun).
  intros c Hc. rewrite Hc in step_mapped, step_mask.
  destruct (missing_mask_of_found m c (total_rows st)) as (j & Hj & Hmask);
    [done|].
  rewrite Hmask in step_mask. injection step_mask as <-.
  exists j, (column_mask (cell j <$> rows m)).
  split; [done|]. split; [done|].
  split; [by rewrite column_mask_length, length_fmap|].
  split; [intros i row Hrow; by apply column_mask_marks|].
  split; [done|].
  by rewrite step_count, column_mask_rows_sum.
Qed.


(** When the mapped cells of the match table are all null or blank (what a
    matcher with nothing to match against leaves behind), or the table has no
    mapped column at all, every row of the match table is counted missing. *)
Lemma unmatched_rows_all_missing data_df ref_df params clock match_df stats clock' :
  run data_df ref_df params clock = Ok (match_df, stats, clock') →
  (∀ c j, _find_mapped_column match_df = Some c →
          index_of c (columns match_df) = Some j →
          Forall (λ row, missing_cell (cell j row)) (rows match_df)) →
  df_len match_df ≤ missing_count stats
  ∧ (is_Some (_find_mapped_column match_df) →
     missing_count stats = df_len match_df).
Proof.
  intros Hrun Hall.
  destruct (process_df_steps _ _ _ _ _ _ _ _ _ _ _ Hrun).
  rewrite step_mapped in step_mask.
  destruct (_find_mapped_column match_df) as [c|] eqn:Hc.
  - destruct (missing_mask_of_found match_df c (total_rows stats) Hc)
      as (j & Hj & Hmask).
    rewrite Hmask in step_mask. injection step_mask as <-.
    rewrite step_count, column_mask_rows_sum.
    rewrite (filter_Forall_id _ _ (Hall c j eq_refl Hj)).
    split; [done|]. done.
  - injection step_mask as <-.
    rewrite step_count, mask_sum_replicate_true, step_total, concat_axis1_len.
    split; [lia|]. by intros [? ?].
Qed.

End Discovery.

(** ** Counting and ranking values *)

Lemma insert_desc_perm (p : string * nat) (l : list (string * nat)) :
  insert_desc p l ≡ₚ p :: l.
Proof.
  induction l as [|q l IH]; simpl; [done|].
  destruct (q.2 <=? p.2)%nat; [done|].
  rewrite IH. apply perm_swap.
Qed.

Lemma insert_desc_sorted (p : string * nat) (l : list (string * nat)) :
  StronglySorted by_count_desc l → StronglySorted by_count_desc (insert_desc p l).
Proof.
  induction 1 as [|q l Hl IH Hq]; simpl.
  - repeat constructor.
  - destruct (q.2 <=? p.2)%nat eqn:Hle.
    + apply Nat.leb_le in Hle. constructor; [by constructor|].
      constructor; [done|].
      eapply Forall_impl; [exact Hq|]. unfold by_count_desc. intros; lia.
    + apply Nat.leb_gt in Hle. constructor; [done|].
      rewrite insert_desc_perm. constructor; [|done].
      unfold by_count_desc. lia.
Qed.

Lemma sort_desc_perm (l : list (string * nat)) : sort_desc l ≡ₚ l.
Proof.
  induction l as [|p l IH]; simpl; [done|].
  by rewrite insert_desc_perm, IH.
Qed.

Lemma sort_desc_sorted (l : list (string * nat)) :
  StronglySorted by_count_desc (sort_desc l).
Proof.
  induction l as [|p l IH]; simpl; [constructor|].
  by apply insert_desc_sorted.
Qed.

Lemma take_sorted {A} (R : relation A) (n : nat) (l : list A) :
  StronglySorted R l → StronglySorted R (take n l).
Proof.
  intros Hl. rewrite <- (take_drop n l) in Hl.
  by apply StronglySorted_app_1_l in Hl.
Qed.

Lemma elem_of_distinct (x : string) (s : list string) :
  x ∈ distinct s ↔ x ∈ s.
Proof.
  induction s as [|y s IH]; simpl; [done|].
  rewrite !elem_of_cons, list_elem_of_filter, IH.
  destruct (decide (x = y)); tauto.
Qed.

Lemma NoDup_distinct (s : list string) : NoDup (distinct s).
Proof.
  induction s as [|y s IH]; simpl; constructor.
  - rewrite list_elem_of_filter. intros [Hy _]. by apply Hy.
  - by apply NoDup_filter.
Qed.

Lemma occurrences_pos (x : string) (s : list string) :
  x ∈ s ↔ (0 < occurrences x s)%nat.
Proof.
  unfold occurrences. induction s as [|y s IH].
  - split; [by intros ?%elem_of_nil|simpl; lia].
  - rewrite elem_of_cons. destruct (decide (y = x)) as [->|Hne].
    + rewrite filter_cons_True by done. simpl. split; [lia|by left].
    + rewrite filter_cons_False by done. rewrite <- IH.
      intuition congruence.
Qed.

Lemma value_counts_keys (s : list string) : (value_counts s).*1 ≡ₚ distinct s.
Proof.
  unfold value_counts. rewrite sort_desc_perm.
  assert (∀ l, ((λ x, (x, occurrences x s)) <$> l).*1 = l) as ->; [|done].
  induction l as [|x l IH]; [done|].
  rewrite !fmap_cons. simpl. by f_equal.
Qed.

Lemma elem_of_value_counts (s : list string) (v : string) (c : nat) :
  (v, c) ∈ value_counts s ↔ v ∈ s ∧ c = occurrences v s.
Proof.
  unfold value_counts. rewrite sort_desc_perm, list_elem_of_fmap. split.
  - intros (x & Heq & Hx). injection Heq as -> ->.
    rewrite elem_of_distinct in Hx. by split.
  - intros [Hv ->]. exists v. by rewrite elem_of_distinct.
Qed.

Lemma value_counts_sorted (s : list string) :
  StronglySorted by_count_desc (value_counts s).
Proof. apply sort_desc_sorted. Qed.

Lemma dropna_replace (s : list string) :
  dropna (replace_empty_with_None s) = filter (λ x, x ≠ "") s.
Proof.
  unfold dropna, replace_empty_with_None.
  induction s as [|x s IH]; [done|].
  rewrite fmap_cons. cbn [omap list_omap].
  case_bool_decide as Hx; simpl.
  - rewrite filter_cons_False by (intros Hn; by apply Hn). exact IH.
  - rewrite filter_cons_True by done. f_equal. exact IH.
Qed.

Lemma select_fmap {A B} (f : A → B) (mask : list bool) (l : list A) :
  select mask (f <$> l) = f <$> select mask l.
Proof.
  revert mask. induction l as [|x l IH]; intros [|[] mask]; simpl; try done.
  by rewrite IH.
Qed.

Lemma select_elem_of {A} (mask : list bool) (l : list A) (x : A) :
  x ∈ select mask l → x ∈ l.
Proof.
  revert mask. induction l as [|y l IH]; intros [|[] mask]; simpl;
    rewrite ?elem_of_cons; try (by intros ?%elem_of_nil).
  - intros [->|Hx]; [by left|right; by eapply IH].
  - intros Hx. right. by eapply IH.
Qed.


Lemma marked_texts_elem_of (m : DataFrame) (mask : list bool) (j : nat) (x : string) :
  x ∈ marked_texts m mask j → x ∈ row_texts m j.
Proof.
  unfold marked_texts, row_texts. rewrite !list_elem_of_fmap.
  intros (row & -> & Hrow). exists row. split; [done|].
  by eapply select_elem_of.
Qed.

Lemma strip_column (m : DataFrame) (j : nat) :
  str_strip (astype_str (cell j <$> rows m)) = row_texts m j.
Proof.
  unfold str_strip, astype_str, row_texts. by rewrite <- !list_fmap_compose.
Qed.

Lemma strip_marked (m : DataFrame) (mask : list bool) (j : nat) :
  str_strip (astype_str (select mask (cell j <$> rows m))) = marked_texts m mask j.
Proof.
  unfold str_strip, astype_str, marked_texts.
  by rewrite select_fmap, <- !list_fmap_compose.
Qed.

Lemma distinct_metrics_original (m : DataFrame) (mask : list bool)
    (mc total ut umc : nat) (ump : Q) (ex : list (string * nat)) :
  "Original" ∈ columns m → df_len m ≤ length mask →
  distinct_metrics m mask mc total = Ok (ut, umc, ump, ex) →
  ∃ j, index_of "Original" (columns m) = Some j
       ∧ ex = take 20 (value_counts (filter (λ x, x ≠ "") (marked_texts m mask j)))
       ∧ ut = nunique (filter (λ x, x ≠ "") (row_texts m j))
       ∧ umc = nunique (filter (λ x, x ≠ "") (marked_texts m mask j))
       ∧ ump = py_round (of_nat umc / of_nat (or_1 ut) * 100) 2.
Proof.
  intros Ho Hlen. unfold distinct_metrics.
  rewrite bool_decide_eq_true_2 by done.
  destruct (df_getitem_ok m (PStr "Original")) as (j & Hj & ->).
  { simpl. by apply bool_decide_eq_true. }
  cbn [mbind result_bind].
  rewrite loc_mask_covering by (by rewrite length_fmap).
  cbn [mbind result_bind].
  rewrite py_truediv_pos by apply or_1_pos.
  cbn [mbind result_bind mret result_ret].
  rewrite !dropna_replace, strip_column, strip_marked.
  intros [= <- <- <- <-]. exists j. simpl in Hj. repeat split; try done.
  unfold series_head. by destruct (filter _ (marked_texts m mask j)).
Qed.

Lemma distinct_metrics_no_original (m : DataFrame) (mask : list bool)
    (mc total ut umc : nat) (ump : Q) (ex : list (string * nat)) :
  "Original" ∉ columns m →
  distinct_metrics m mask mc total = Ok (ut, umc, ump, ex) →
  ut = 0%nat ∧ umc = mc ∧ ex = []
  ∧ ump = py_round (of_nat mc / of_nat (or_1 total) * 100) 2.
Proof.
  intros Ho. unfold distinct_metrics.
  rewrite bool_decide_eq_false_2 by done.
  rewrite py_truediv_pos by apply or_1_pos.
  cbn [mbind result_bind mret result_ret].
  by intros [= <- <- <- <-].
Qed.

Lemma occurrences_filter (v : string) (l : list string) :
  v ≠ "" → occurrences v (filter (λ x, x ≠ "") l) = occurrences v l.
Proof.
  intros Hv. unfold occurrences. induction l as [|x l IH]; [done|].
  destruct (decide (x = v)) as [->|Hne].
  - rewrite (filter_cons_True (λ x, x ≠ "")) by done.
    rewrite !(filter_cons_True (λ y, y = v)) by done. simpl. by f_equal.
  - rewrite (filter_cons_False (λ y, y = v) x l) by done.
    destruct (decide (x = "")) as [->|Hx].
    + rewrite (filter_cons_False (λ x, x ≠ "")) by (intros Hn; by apply Hn).
      exact IH.
    + rewrite (filter_cons_True (λ x, x ≠ "")) by done.
      rewrite (filter_cons_False (λ y, y = v)) by done. exact IH.
Qed.

Lemma take_full {A} (n : nat) (l : list A) (y : A) :
  y ∈ l → y ∉ take n l → length (take n l) = n.
Proof.
  intros Hy Hny. destruct (decide (n ≤ length l)) as [Hn|Hn].
  - by rewrite length_take_le.
  - rewrite take_ge in Hny by lia. done.
Qed.

Section Aggregates.

Context (py_float : pyval → result Q) (py_int : pyval → result Z)
        (preprocess_data : list string → DataFrame)
        (get_matches : DataFrame → list string → Q → Z → bool → DataFrame).

Local Abbreviation run :=
  (process_df py_float py_int preprocess_data get_matches).
Local Abbreviation matcher := (add_substance preprocess_data get_matches).

(** C7: [unique_missing_examples] has at most 20 pairs, in order of
    non-increasing count, one pair per value.  Each pair carries a text that
    is not empty, namely the stripped text of the [Original] cell of a row
    marked missing, with the number of marked rows that carry it; and a
    text left out has a count no larger than any pair kept, which are then
    20.  Without an [Original] column the list is empty. *)
Theorem top_missing_ranking data_df ref_df params clock :
  ∃ match_df stats clock' mask,
    run data_df ref_df params clock = Ok (match_df, stats, clock')
    ∧ missing_mask_of match_df (mapped_column stats) (total_rows stats) = Ok mask
    ∧ length (unique_missing_examples stats) ≤ 20
    ∧ StronglySorted by_count_desc (unique_missing_examples stats)
    ∧ NoDup (unique_missing_examples stats).*1
    ∧ ("Original" ∉ columns match_df → unique_missing_examples stats = [])
    ∧ (∀ j, index_of "Original" (columns match_df) = Some j →
         let texts := marked_texts match_df mask j in
         (∀ v c, (v, c) ∈ unique_missing_examples stats →
                 v ≠ "" ∧ v ∈ texts ∧ c = occurrences v texts ∧ 0 < c)
         ∧ (∀ v, v ∈ texts → v ≠ "" →
                 v ∉ (unique_missing_examples stats).*1 →
                 length (unique_missing_examples stats) = 20
                 ∧ ∀ p, p ∈ unique_missing_examples stats →
                        occurrences v texts ≤ p.2)).
Proof.
  destruct (process_df_returns py_float py_int preprocess_data get_matches
              data_df ref_df params clock) as (m & st & c' & Hrun).
  destruct (process_df_steps _ _ _ _ _ _ _ _ _ _ _ Hrun).
  exists m, st, c', missing_mask. split; [done|]. split; [done|].
  assert (df_len m ≤ length missing_mask) as Hcover.
  { destruct (missing_mask_of_total m (total_rows st)) as (mask' & Hm' & Hlen).
    - rewrite step_total, concat_axis1_len. lia.
    - rewrite <- step_mapped, step_mask in Hm'. by injection Hm' as <-. }
  destruct (decide ("Original" ∈ columns m)) as [Ho|Ho].
  - destruct (distinct_metrics_original _ _ _ _ _ _ _ _ Ho Hcover step_distinct)
      as (j & Hj & Hex & _).
    set (om := filter (λ x, x ≠ "") (marked_texts m missing_mask j)) in Hex.
    rewrite Hex.
    split; [rewrite length_take; lia|].
    split; [apply take_sorted, value_counts_sorted|].
    split.
    { rewrite fmap_take. eapply sublist_NoDup; [|apply sublist_take].
      rewrite value_counts_keys. apply NoDup_distinct. }
    split; [done|].
    intros j0 Hj0 texts. assert (j0 = j) as -> by congruence.
    split.
    + intros v c Hvc.
      apply subseteq_take, elem_of_value_counts in Hvc as [Hv ->].
      pose proof Hv as Hpos%occurrences_pos.
      apply list_elem_of_filter in Hv as [Hne Hv].
      rewrite <- (occurrences_filter v texts) by done. done.
    + intros v Hv Hne Hnot.
      assert ((v, occurrences v om) ∈ value_counts om) as Hin.
      { apply elem_of_value_counts. split; [|done].
        by apply list_elem_of_filter. }
      assert ((v, occurrences v om) ∉ take 20 (value_counts om)) as Hout.
      { intros Hk. apply Hnot, list_elem_of_fmap.
        by exists (v, occurrences v om). }
      split; [by eapply take_full|].
      intros p Hp. rewrite <- (occurrences_filter v texts) by done.
      change (by_count_desc p (v, occurrences v om)).
      pose proof (value_counts_sorted om) as Hs.
      rewrite <- (take_drop 20 (value_counts om)) in Hs, Hin.
      apply elem_of_app in Hin as [Hin|Hin]; [done|].
      by eapply StronglySorted_app_1_elem_of.
  - destruct (distinct_metrics_no_original _ _ _ _ _ _ _ _ Ho step_distinct)
      as (_ & _ & -> & _).
    split; [simpl; lia|]. split; [constructor|]. split; [constructor|].
    split; [done|].
    intros j Hj. destruct Ho. apply list_elem_of_lookup.
    exists j. by apply index_of_lt.
Qed.

End Aggregates.

Section Contract.

Context (py_float : pyval → result Q) (py_int : pyval → result Z)
        (preprocess_data : list string → DataFrame)
        (get_matches : DataFrame → list string → Q → Z → bool → DataFrame).

Local Abbreviation run :=
  (process_df py_float py_int preprocess_data get_matches).
Local Abbreviation matcher := (add_substance preprocess_data get_matches).




(** C1, as the code has it: when [params] has no key [only_first_match],
    [process_df] calls the matcher with [only_first_match] true. *)
Theorem only_first_match_absent data_df ref_df params clock :
  params !! "only_first_match" = None →
  param_only_first_match params = true
  ∧ ∃ col_series ref_series stats clock',
      run data_df ref_df params clock
      = Ok (matcher col_series ref_series (param_threshold py_float params)
              (param_max_per_match_id py_int params) true,
            stats, clock').
Proof.
  intros Habsent.
  assert (param_only_first_match params = true) as Hflag.
  { unfold param_only_first_match, dict_get. by rewrite Habsent. }
  split; [done|].
  destruct (process_df_returns py_float py_int preprocess_data get_matches
              data_df ref_df params clock) as (m & st & c' & Hrun).
  destruct (process_df_steps _ _ _ _ _ _ _ _ _ _ _ Hrun).
  exists col_series, ref_series, st, c'.
  by rewrite Hrun, step_match, Hflag.
Qed.

(** C2, as the code has it: two calls on the same subject dataset,
    reference dataset and parameters return the same match table and
    statistics that agree in every field but [processing_seconds], which in
    each call is the difference of its two clock readings rounded to four
    decimals. *)
Theorem rerun_agrees_up_to_seconds data_df ref_df params clock1 clock2 :
  ∃ match_df stats1 stats2 clock1' clock2',
    run data_df ref_df params clock1 = Ok (match_df, stats1, clock1')
    ∧ run data_df ref_df params clock2 = Ok (match_df, stats2, clock2')
    ∧ processing_seconds stats1 = py_round (clock1 1%nat - clock1 0%nat) 4
    ∧ processing_seconds stats2 = py_round (clock2 1%nat - clock2 0%nat) 4
    ∧ stats2 = with_seconds (processing_seconds stats2) stats1.
Proof.
  destruct (process_df_returns py_float py_int preprocess_data get_matches
              data_df ref_df params clock1) as (m1 & st1 & c1 & Hrun1).
  destruct (process_df_returns py_float py_int preprocess_data get_matches
              data_df ref_df params clock2) as (m2 & st2 & c2 & Hrun2).
  destruct (process_df_steps _ _ _ _ _ _ _ _ _ _ _ Hrun1)
    as [cs1 rs1 mask1 Hcs1 Hrs1 Hm1 Ht1 Hmap1 Hmask1 Hcnt1 Hpct1 Hd1 Hs1 Hcols1 _].
  destruct (process_df_steps _ _ _ _ _ _ _ _ _ _ _ Hrun2)
    as [cs2 rs2 mask2 Hcs2 Hrs2 Hm2 Ht2 Hmap2 Hmask2 Hcnt2 Hpct2 Hd2 Hs2 Hcols2 _].
  assert (cs2 = cs1) as -> by congruence.
  assert (rs2 = rs1) as -> by congruence.
  assert (m2 = m1) as -> by congruence.
  exists m1, st1, st2, c1, c2.
  split; [done|]. split; [done|]. split; [done|]. split; [done|].
  assert (total_rows st2 = total_rows st1) as Et by congruence.
  assert (mapped_column st2 = mapped_column st1) as Emap by congruence.
  rewrite Et, Emap in Hmask2.
  assert (mask2 = mask1) as -> by congruence.
  assert (missing_count st2 = missing_count st1) as Ecnt by congruence.
  rewrite Et, Ecnt in Hpct2, Hd2.
  rewrite Hpct1 in Hpct2. rewrite Hd1 in Hd2.
  injection Hpct2 as Epct. injection Hd2 as Eut Eumc Eump Eex.
  destruct st1, st2; unfold with_seconds; simpl in *. congruence.
Qed.

End Contract.

(** ** The pipeline on concrete inputs *)

Example parse_bool_examples :
  _parse_bool (PStr "  TRUE ") false = true
  ∧ _parse_bool (PStr "on") false = true
  ∧ _parse_bool (PInt 1) false = true
  ∧ _parse_bool (PInt 2) false = false
  ∧ _parse_bool (PStr "false") true = false
  ∧ _parse_bool PNone true = true
  ∧ _parse_bool (PBool false) true = false.
Proof. vm_compute. by repeat split. Qed.

Example py_str_int : py_str (PInt (-120)) = "-120" ∧ py_str (PInt 0) = "0".
Proof. vm_compute. by split. Qed.

Example strip_example : PyStr.strip "  a b  " = "a b" ∧ PyStr.strip "   " = "".
Proof. vm_compute. by split. Qed.

Example find_mapped_column_examples :
  _find_mapped_column
    {| columns := ["Original"; "Mapped_to1"; "Score1"; "Mapped_to2"]; rows := [] |}
  = Some "Mapped_to1"
  ∧ _find_mapped_column
      {| columns := ["Mapped_to2"; "Mapped_to"]; rows := [] |}
    = Some "Mapped_to"
  ∧ _find_mapped_column {| columns := ["Original"; "mapped_to"]; rows := [] |}
    = None.
Proof. vm_compute. by repeat split. Qed.

Example value_counts_example :
  value_counts ["a"; "b"; "b"; "c"; "a"; "d"; "b"]
  = [("b", 3%nat); ("a", 2%nat); ("c", 1%nat); ("d", 1%nat)].
Proof. vm_compute. reflexivity. Qed.

Example py_round_half_even :
  py_round (1 # 8) 2 = (3 # 25)%Q ∧ py_round (3 # 8) 2 = (19 # 50)%Q
  ∧ py_round (2 # 3) 4 = (6667 # 10000)%Q.
Proof. vm_compute. by repeat split. Qed.

Example run_table_single :
  Run.outcome (Run.process_fixed Run.table_single Run.subject Run.reference ∅
                 (Run.clock_from 0 (1 # 3)))
  = Some (Run.table_single,
          {| total_rows := 4;
             missing_count := 2;
             missing_pct := 50;
             unique_total_values := 4;
             unique_missing_count := 2;
             unique_missing_pct := 50;
             processing_seconds := 3333 # 10000;
             columns_out := ["Original"; "Preprocessed"; "Mapped_to"; "Score"];
             mapped_column := Some "Mapped_to";
             unique_missing_examples := [("nan", 1%nat); ("asprin", 1%nat)] |}).
Proof. vm_compute. reflexivity. Qed.

Example run_no_rows :
  snd <$> Run.outcome
            (Run.process_fixed {| columns := ["Original"; "Mapped_to"]; rows := [] |}
               {| columns := ["substance"]; rows := [] |} Run.reference ∅
               (Run.clock_from 0 0))
  = Some {| total_rows := 0;
            missing_count := 0;
            missing_pct := 0;
            unique_total_values := 0;
            unique_missing_count := 0;
            unique_missing_pct := 0;
            processing_seconds := 0;
            columns_out := ["Original"; "Mapped_to"];
            mapped_column := Some "Mapped_to";
            unique_missing_examples := [] |}.
Proof. vm_compute. reflexivity. Qed.

Example select_absent_column :
  select_col_series Run.subject
    (param_substance_col {[ "substance_col" := PStr "Bezeichnung" ]})
  = Ok [""; ""; ""; ""]
  ∧ select_col_series Run.subject (param_substance_col ∅)
    = Ok ["Aspirin"; "Paracetamol "; "nan"; "asprin"]
  ∧ select_ref_series Run.reference
      (param_ref_substance_col {[ "ref_substance_col" := PStr "Substanz" ]})
    = Ok [].
Proof. vm_compute. by repeat split. Qed.

(** C1, counterexample: with no key [only_first_match] in [params] the flag
    is true, and a matcher that writes down the flag it receives writes
    [True] in every row. *)
Lemma only_first_match_absent_is_true :
  (∅ : gmap string pyval) !! "only_first_match" = None
  ∧ param_only_first_match ∅ ≠ false
  ∧ fst <$> Run.outcome
              (process_df Run.float_plain Run.int_plain Run.preprocess_plain
                 Run.echo_flag_matches Run.subject Run.reference ∅
                 (Run.clock_from 0 1))
    = Some {| columns := ["Original"; "only_first_match"];
              rows := [[PStr "Aspirin"; PBool true];
                       [PStr "Paracetamol "; PBool true];
                       [PStr "nan"; PBool true];
                       [PStr "asprin"; PBool true]] |}.
Proof. split; [reflexivity|]. split; [discriminate|]. vm_compute. reflexivity. Qed.

(** C1 at the empty parameter dictionary: the key is absent, the flag is
    true, and the matcher is called with it. *)
Lemma only_first_match_absent_witness :
  (∅ : gmap string pyval) !! "only_first_match" = None
  ∧ param_only_first_match ∅ = true
  ∧ ∃ col_series ref_series stats clock',
      process_df Run.float_plain Run.int_plain Run.preprocess_plain
        Run.echo_flag_matches Run.subject Run.reference ∅ (Run.clock_from 0 1)
      = Ok (add_substance Run.preprocess_plain Run.echo_flag_matches
              col_series ref_series (param_threshold Run.float_plain ∅)
              (param_max_per_match_id Run.int_plain ∅) true,
            stats, clock').
Proof.
  split; [reflexivity|].
  apply (only_first_match_absent Run.float_plain Run.int_plain
           Run.preprocess_plain Run.echo_flag_matches Run.subject Run.reference
           ∅ (Run.clock_from 0 1)).
  reflexivity.
Defined.

(** C2, counterexample: the same call under two clocks reports different
    [processing_seconds], so the two statistics records differ. *)
Lemma rerun_seconds_differ :
  let first :=
    Run.outcome (Run.process_fixed Run.table_single Run.subject Run.reference
                   ∅ (Run.clock_from 0 (1 # 2))) in
  let second :=
    Run.outcome (Run.process_fixed Run.table_single Run.subject Run.reference
                   ∅ (Run.clock_from 0 2)) in
  (processing_seconds ∘ snd) <$> first = Some (1 # 2)%Q
  ∧ (processing_seconds ∘ snd) <$> second = Some 2%Q
  ∧ ¬ (1 # 2 == 2)%Q
  ∧ snd <$> first ≠ snd <$> second.
Proof.
  split; [vm_compute; reflexivity|]. split; [vm_compute; reflexivity|].
  split; [discriminate|]. vm_compute. discriminate.
Qed.



(** * Further properties of the pipeline *)

(** ** Rounding *)

Lemma round_half_even_comp (x y : Q) :
  (x == y)%Q → round_half_even x = round_half_even y.
Proof.
  intros Hxy. unfold round_half_even.
  rewrite (Qfloor_comp _ _ Hxy).
  assert ((x - inject_Z (Qfloor y) ?= 1 # 2)
          = (y - inject_Z (Qfloor y) ?= 1 # 2))%Q as ->; [|done].
  apply Qcompare_comp; [by rewrite Hxy|done].
Qed.

Lemma py_round_comp (x y : Q) (n : nat) :
  (x == y)%Q → py_round x n = py_round y n.
Proof.
  intros Hxy. unfold py_round.
  by rewrite (round_half_even_comp (x * _) (y * _)) by (by rewrite Hxy).
Qed.

Lemma round_half_even_between (a b : Z) (y : Q) :
  (inject_Z a <= y)%Q → (y <= inject_Z b)%Q →
  (a ≤ round_half_even y ≤ b)%Z.
Proof.
  intros Ha Hb. unfold round_half_even.
  pose proof (Qfloor_le y) as Hf. pose proof (Qlt_floor y) as Hf'.
  set (f := Qfloor y) in *.
  assert (a ≤ f)%Z as Haf.
  { apply Z.lt_succ_r. rewrite Zlt_Qlt. unfold Z.succ.
    eapply Qle_lt_trans; [exact Ha|exact Hf']. }
  assert (f ≤ b)%Z as Hfb by (rewrite Zle_Qle; lra).
  assert ((1 # 2 <= y - inject_Z f)%Q → (f + 1 ≤ b)%Z) as Hup.
  { intros Hhalf. assert (f < b)%Z; [|lia]. rewrite Zlt_Qlt. lra. }
  destruct (y - inject_Z f ?= 1 # 2)%Q eqn:Hc.
  - apply Qeq_alt in Hc.
    destruct (Z.even f); [lia|]. split; [lia|]. apply Hup. lra.
  - lia.
  - apply Qgt_alt in Hc. split; [lia|]. apply Hup. lra.
Qed.

Lemma pow10_pos (n : nat) : (0 < inject_Z (10 ^ Z.of_nat n))%Q.
Proof.
  change 0%Q with (inject_Z 0). rewrite <- Zlt_Qlt.
  apply Z.pow_pos_nonneg; lia.
Qed.

Lemma py_round_between (lo hi : Z) (x : Q) (n : nat) :
  (inject_Z lo <= x)%Q → (x <= inject_Z hi)%Q →
  (inject_Z lo <= py_round x n)%Q ∧ (py_round x n <= inject_Z hi)%Q.
Proof.
  intros Hlo Hhi. unfold py_round.
  pose proof (pow10_pos n) as Hp.
  set (p := inject_Z (10 ^ Z.of_nat n)) in *.
  destruct (round_half_even_between (lo * 10 ^ Z.of_nat n)
              (hi * 10 ^ Z.of_nat n) (x * p)) as [Hr1 Hr2].
  { rewrite inject_Z_mult. fold p. nra. }
  { rewrite inject_Z_mult. fold p. nra. }
  rewrite Zle_Qle, inject_Z_mult in Hr1, Hr2. fold p in Hr1, Hr2.
  rewrite Qred_correct. split.
  - apply Qle_shift_div_l; [done|]. exact Hr1.
  - apply Qle_shift_div_r; [done|]. exact Hr2.
Qed.

Lemma of_nat_le (a b : nat) : a ≤ b → (of_nat a <= of_nat b)%Q.
Proof. intros Hab. unfold of_nat. rewrite <- Zle_Qle. lia. Qed.

Lemma of_nat_pos (n : nat) : (0 < n)%nat → (0 < of_nat n)%Q.
Proof.
  intros Hn. unfold of_nat. change 0%Q with (inject_Z 0).
  rewrite <- Zlt_Qlt. lia.
Qed.

(** A share [a / b * 100] of a part in a whole, rounded, is a percentage. *)
Lemma share_is_percentage (a b : nat) :
  a ≤ b → (0 < b)%nat →
  (0 <= py_round (of_nat a / of_nat b * 100) 2)%Q
  ∧ (py_round (of_nat a / of_nat b * 100) 2 <= 100)%Q.
Proof.
  intros Hab Hb.
  pose proof (of_nat_le _ _ Hab) as Hle.
  pose proof (of_nat_pos _ Hb) as Hpos.
  assert (0 <= of_nat a)%Q as Ha by (apply (of_nat_le 0); lia).
  assert (0 <= of_nat a / of_nat b)%Q as H0.
  { apply Qle_shift_div_l; [done|]. lra. }
  assert (of_nat a / of_nat b <= 1)%Q as H1.
  { apply Qle_shift_div_r; [done|]. lra. }
  apply (py_round_between 0 100);
    [change (inject_Z 0) with 0%Q|change (inject_Z 100) with 100%Q]; lra.
Qed.

Lemma py_round_zero_share (b : nat) :
  py_round (of_nat 0 / of_nat b * 100) 2 = 0%Q.
Proof.
  rewrite (py_round_comp _ 0); [by vm_compute|].
  unfold of_nat. simpl. unfold Qdiv. rewrite Qmult_0_l. reflexivity.
Qed.

(** ** Counts *)

Lemma mask_sum_cons (b : bool) (mask : list bool) :
  mask_sum (b :: mask) = ((if b then 1 else 0) + mask_sum mask)%nat.
Proof.
  unfold mask_sum. destruct b.
  - by rewrite filter_cons_True.
  - by rewrite filter_cons_False.
Qed.

Lemma mask_sum_le_length (mask : list bool) : mask_sum mask ≤ length mask.
Proof. apply length_filter. Qed.

Lemma length_select_le_sum {A} (mask : list bool) (l : list A) :
  length (select mask l) ≤ mask_sum mask.
Proof.
  revert mask. induction l as [|x l IH]; intros [|b mask]; simpl; try lia.
  rewrite mask_sum_cons. specialize (IH mask). destruct b; simpl; lia.
Qed.

Lemma length_distinct_le (s : list string) : nunique s ≤ length s.
Proof.
  unfold nunique. induction s as [|x s IH]; simpl; [done|].
  pose proof (length_filter (λ y, y ≠ x) (distinct s)). lia.
Qed.

Lemma nunique_mono (a b : list string) :
  (∀ x, x ∈ a → x ∈ b) → nunique a ≤ nunique b.
Proof.
  intros Hsub. unfold nunique. apply submseteq_length, NoDup_submseteq.
  - apply NoDup_distinct.
  - intros x. rewrite !elem_of_distinct. apply Hsub.
Qed.

Lemma length_value_counts (s : list string) :
  length (value_counts s) = nunique s.
Proof.
  unfold nunique. rewrite <- (value_counts_keys s). by rewrite length_fmap.
Qed.

Lemma filter_member_split (y : string) (k s : list string) :
  y ∉ k →
  length (filter (λ z, z ∈ y :: k) s)
  = (occurrences y s + length (filter (λ z, z ∈ k) s))%nat.
Proof.
  intros Hy. unfold occurrences. induction s as [|z s IH]; [done|].
  destruct (decide (z = y)) as [->|Hne].
  - rewrite (filter_cons_True (λ z, z ∈ y :: k)) by left.
    rewrite (filter_cons_True (λ z, z = y)) by done.
    rewrite (filter_cons_False (λ z, z ∈ k)) by done.
    simpl. by rewrite IH.
  - rewrite (filter_cons_False (λ z, z = y)) by done.
    destruct (decide (z ∈ k)) as [Hz|Hz].
    + rewrite (filter_cons_True (λ z, z ∈ y :: k)) by (by right).
      rewrite (filter_cons_True (λ z, z ∈ k)) by done.
      simpl. rewrite IH. lia.
    + rewrite (filter_cons_False (λ z, z ∈ y :: k)).
      * by rewrite (filter_cons_False (λ z, z ∈ k)).
      * rewrite elem_of_cons. tauto.
Qed.

(** The occurrences of distinct values are disjoint parts of the list. *)
Lemma occurrences_sum (k s : list string) :
  NoDup k →
  sum_list_with (λ y, occurrences y s) k = length (filter (λ z, z ∈ k) s).
Proof.
  induction 1 as [|y k Hy _ IH]; simpl.
  - induction s as [|z s IHs]; [done|].
    rewrite filter_cons_False; [done|]. apply not_elem_of_nil.
  - by rewrite filter_member_split, IH.
Qed.

Lemma sum_counts_table (s l : list string) :
  sum_list_with snd ((λ x, (x, occurrences x s)) <$> l)
  = sum_list_with (λ y, occurrences y s) l.
Proof. induction l as [|x l IH]; [done|]. simpl. f_equal. exact IH. Qed.

Lemma value_counts_sum (s : list string) :
  sum_list_with snd (value_counts s) = length s.
Proof.
  unfold value_counts.
  rewrite sort_desc_perm, sum_counts_table.
  rewrite occurrences_sum by apply NoDup_distinct.
  f_equal. apply filter_Forall_id, Forall_forall.
  intros x Hx. by apply elem_of_distinct.
Qed.

(** ** Invariants of the statistics *)

Section Invariants.

Context (py_float : pyval → result Q) (py_int : pyval → result Z)
        (preprocess_data : list string → DataFrame)
        (get_matches : DataFrame → list string → Q → Z → bool → DataFrame).

Local Abbreviation run :=
  (process_df py_float py_int preprocess_data get_matches).

(** A property of every result is a property of the result of every call. *)
Lemma run_always (P : DataFrame → Stats → Clock → Prop)
    data_df ref_df params clock :
  (∀ match_df stats clock',
     run data_df ref_df params clock = Ok (match_df, stats, clock') →
     P match_df stats clock') →
  ∃ match_df stats clock',
    run data_df ref_df params clock = Ok (match_df, stats, clock')
    ∧ P match_df stats clock'.
Proof.
  intros HP.
  destruct (process_df_returns py_float py_int preprocess_data get_matches
              data_df ref_df params clock) as (m & st & c' & Hrun).
  exists m, st, c'. split; [done|]. by apply HP.
Qed.

Lemma run_mask data_df ref_df params clock match_df stats clock' :
  run data_df ref_df params clock = Ok (match_df, stats, clock') →
  ∃ mask,
    missing_count stats = mask_sum mask
    ∧ df_len match_df ≤ length mask
    ∧ length mask ≤ total_rows stats
    ∧ (is_Some (mapped_column stats) → length mask = df_len match_df)
    ∧ (mapped_column stats = None → mask = replicate (total_rows stats) true)
    ∧ distinct_metrics match_df mask (missing_count stats) (total_rows stats)
      = Ok (unique_total_values stats, unique_missing_count stats,
            unique_missing_pct stats, unique_missing_examples stats).
Proof.
  intros Hrun.
  destruct (process_df_steps _ _ _ _ _ _ _ _ _ _ _ Hrun).
  exists missing_mask. split; [done|].
  assert (df_len match_df ≤ total_rows stats) as Hrows.
  { rewrite step_total, concat_axis1_len. lia. }
  rewrite step_mapped in step_mask |- *.
  destruct (_find_mapped_column match_df) as [c|] eqn:Hc.
  - destruct (missing_mask_of_found match_df c (total_rows stats) Hc)
      as (j & _ & Hmask).
    rewrite Hmask in step_mask. injection step_mask as <-.
    rewrite column_mask_length, length_fmap. fold (df_len match_df).
    by repeat split.
  - injection step_mask as <-. rewrite length_replicate.
    split; [done|]. split; [done|]. split; [by intros [? ?]|]. by split.
Qed.

Lemma run_missing_le data_df ref_df params clock match_df stats clock' :
  run data_df ref_df params clock = Ok (match_df, stats, clock') →
  missing_count stats ≤ total_rows stats
  ∧ (is_Some (mapped_column stats) → missing_count stats ≤ df_len match_df)
  ∧ (mapped_column stats = None → missing_count stats = total_rows stats).
Proof.
  intros Hrun.
  destruct (run_mask _ _ _ _ _ _ _ Hrun)
    as (mask & Hcount & _ & Hlen & Hfound & Hnone & _).
  pose proof (mask_sum_le_length mask) as Hsum.
  rewrite Hcount. split; [lia|]. split.
  - intros Hsome. rewrite <- (Hfound Hsome). done.
  - intros Hn. rewrite (Hnone Hn). apply mask_sum_replicate_true.
Qed.

Lemma run_unique_counts data_df ref_df params clock match_df stats clock' :
  run data_df ref_df params clock = Ok (match_df, stats, clock') →
  unique_missing_count stats ≤ missing_count stats
  ∧ ("Original" ∈ columns match_df →
     unique_missing_count stats ≤ unique_total_values stats
     ∧ unique_total_values stats ≤ df_len match_df
     ∧ length (unique_missing_examples stats)
       = 20 `min` unique_missing_count stats
     ∧ sum_list_with snd (unique_missing_examples stats) ≤ missing_count stats)
  ∧ ("Original" ∉ columns match_df →
     unique_total_values stats = 0%nat
     ∧ unique_missing_count stats = missing_count stats
     ∧ unique_missing_examples stats = []).
Proof.
  intros Hrun.
  destruct (run_mask _ _ _ _ _ _ _ Hrun)
    as (mask & Hcount & Hcover & _ & _ & _ & Hd).
  destruct (decide ("Original" ∈ columns match_df)) as [Ho|Ho].
  - destruct (distinct_metrics_original _ _ _ _ _ _ _ _ Ho Hcover Hd)
      as (j & _ & Hex & Hut & Humc & _).
    set (om := filter (λ x, x ≠ "") (marked_texts match_df mask j)) in *.
    set (all := filter (λ x, x ≠ "") (row_texts match_df j)) in *.
    assert (length om ≤ missing_count stats) as Hom.
    { rewrite Hcount. etrans; [apply length_filter|].
      unfold marked_texts. rewrite length_fmap. apply length_select_le_sum. }
    assert (unique_missing_count stats ≤ unique_total_values stats) as Hle.
    { rewrite Humc, Hut. apply nunique_mono. intros x.
      unfold om, all. rewrite !list_elem_of_filter.
      intros [Hx Hin]. split; [done|]. by eapply marked_texts_elem_of. }
    assert (unique_missing_count stats ≤ missing_count stats) as Hmc.
    { rewrite Humc. etrans; [apply length_distinct_le|done]. }
    split; [done|]. split; [|done]. intros _.
    split; [done|]. split.
    { rewrite Hut. etrans; [apply length_distinct_le|].
      etrans; [apply length_filter|].
      unfold row_texts, df_len. by rewrite length_fmap. }
    split.
    { rewrite Hex, length_take, length_value_counts, Humc. done. }
    rewrite Hex. etrans; [|exact Hom].
    rewrite <- (value_counts_sum om).
    rewrite <- (take_drop 20 (value_counts om)) at 2.
    rewrite sum_list_with_app. lia.
  - destruct (distinct_metrics_no_original _ _ _ _ _ _ _ _ Ho Hd)
      as (Hut & Humc & Hex & _).
    split; [lia|]. split; [done|]. done.
Qed.

Lemma le_or_1 (n : nat) : n ≤ or_1 n.
Proof. unfold or_1. destruct n; simpl; lia. Qed.

Lemma run_missing_pct data_df ref_df params clock match_df stats clock' :
  run data_df ref_df params clock = Ok (match_df, stats, clock') →
  (0 <= missing_pct stats)%Q ∧ (missing_pct stats <= 100)%Q.
Proof.
  intros Hrun.
  destruct (run_missing_le _ _ _ _ _ _ _ Hrun) as (Hle & _).
  destruct (process_df_steps _ _ _ _ _ _ _ _ _ _ _ Hrun).
  unfold missing_pct_of in step_pct.
  destruct (0 <? total_rows stats)%nat eqn:Hpos.
  - apply Nat.ltb_lt in Hpos. rewrite py_truediv_pos in step_pct by done.
    injection step_pct as <-. by apply share_is_percentage.
  - injection step_pct as <-. split; lra.
Qed.

Lemma run_unique_pct data_df ref_df params clock match_df stats clock' :
  run data_df ref_df params clock = Ok (match_df, stats, clock') →
  (0 <= unique_missing_pct stats)%Q ∧ (unique_missing_pct stats <= 100)%Q.
Proof.
  intros Hrun.
  destruct (run_missing_le _ _ _ _ _ _ _ Hrun) as (Hle & _).
  destruct (run_unique_counts _ _ _ _ _ _ _ Hrun) as (_ & Hyes & Hno).
  destruct (run_mask _ _ _ _ _ _ _ Hrun)
    as (mask & _ & Hcover & _ & _ & _ & Hd).
  destruct (decide ("Original" ∈ columns match_df)) as [Ho|Ho].
  - destruct (distinct_metrics_original _ _ _ _ _ _ _ _ Ho Hcover Hd)
      as (j & _ & _ & _ & _ & ->).
    destruct (Hyes Ho) as (Hu & _).
    apply share_is_percentage; [|apply or_1_pos].
    etrans; [exact Hu|apply le_or_1].
  - destruct (distinct_metrics_no_original _ _ _ _ _ _ _ _ Ho Hd)
      as (_ & _ & _ & ->).
    apply share_is_percentage; [|apply or_1_pos].
    etrans; [exact Hle|apply le_or_1].
Qed.

(** X1: the missing rows are never more than the rows counted: in every
    call [missing_count] is at most [total_rows], and at most the number of
    rows of the match table when a mapped column was found. *)
Theorem missing_count_within_rows (data_df ref_df : DataFrame)
    (params : gmap string pyval) (clock : Clock) :
  ∃ match_df stats clock',
    run data_df ref_df params clock = Ok (match_df, stats, clock')
    ∧ missing_count stats ≤ total_rows stats
    ∧ (is_Some (mapped_column stats) → missing_count stats ≤ df_len match_df).
Proof.
  apply (run_always (λ m st _,
    missing_count st ≤ total_rows st
    ∧ (is_Some (mapped_column st) → missing_count st ≤ df_len m))).
  intros m st c' Hrun.
  destruct (run_missing_le _ _ _ _ _ _ _ Hrun) as (H1 & H2 & _). by split.
Qed.

(** X2: [missing_pct] is a percentage: between 0 and 100 in every call. *)
Theorem missing_pct_is_percentage (data_df ref_df : DataFrame)
    (params : gmap string pyval) (clock : Clock) :
  ∃ match_df stats clock',
    run data_df ref_df params clock = Ok (match_df, stats, clock')
    ∧ (0 <= missing_pct stats)%Q ∧ (missing_pct stats <= 100)%Q.
Proof.
  apply (run_always (λ _ st _,
    (0 <= missing_pct st)%Q ∧ (missing_pct st <= 100)%Q)).
  intros m st c' Hrun. by eapply run_missing_pct.
Qed.

(** X3: the distinct missing values are never more than the missing rows;
    with an [Original] column they are never more than the distinct values
    of the whole table, which are never more than its rows. *)
Theorem distinct_counts_bounded (data_df ref_df : DataFrame)
    (params : gmap string pyval) (clock : Clock) :
  ∃ match_df stats clock',
    run data_df ref_df params clock = Ok (match_df, stats, clock')
    ∧ unique_missing_count stats ≤ missing_count stats
    ∧ ("Original" ∈ columns match_df →
       unique_missing_count stats ≤ unique_total_values stats
       ∧ unique_total_values stats ≤ df_len match_df).
Proof.
  apply (run_always (λ m st _,
    unique_missing_count st ≤ missing_count st
    ∧ ("Original" ∈ columns m →
       unique_missing_count st ≤ unique_total_values st
       ∧ unique_total_values st ≤ df_len m))).
  intros m st c' Hrun.
  destruct (run_unique_counts _ _ _ _ _ _ _ Hrun) as (H1 & Hyes & _).
  split; [done|]. intros Ho. destruct (Hyes Ho) as (? & ? & _). by split.
Qed.

(** X4: [unique_missing_pct] is a percentage in every call, with or without
    an [Original] column: the divisor that replaces a zero is only ever used
    under a zero count. *)
Theorem unique_missing_pct_is_percentage (data_df ref_df : DataFrame)
    (params : gmap string pyval) (clock : Clock) :
  ∃ match_df stats clock',
    run data_df ref_df params clock = Ok (match_df, stats, clock')
    ∧ (0 <= unique_missing_pct stats)%Q ∧ (unique_missing_pct stats <= 100)%Q
    ∧ (unique_total_values stats = 0%nat → "Original" ∈ columns match_df →
       unique_missing_pct stats = 0%Q)
    ∧ (total_rows stats = 0%nat → unique_missing_pct stats = 0%Q).
Proof.
  apply (run_always (λ m st _,
    (0 <= unique_missing_pct st)%Q ∧ (unique_missing_pct st <= 100)%Q
    ∧ (unique_total_values st = 0%nat → "Original" ∈ columns m →
       unique_missing_pct st = 0%Q)
    ∧ (total_rows st = 0%nat → unique_missing_pct st = 0%Q))).
  intros m st c' Hrun.
  destruct (run_unique_pct _ _ _ _ _ _ _ Hrun) as (H0 & H100).
  split; [done|]. split; [done|].
  destruct (run_missing_le _ _ _ _ _ _ _ Hrun) as (Hle & _).
  destruct (run_unique_counts _ _ _ _ _ _ _ Hrun) as (Hmc & Hyes & Hno).
  destruct (run_mask _ _ _ _ _ _ _ Hrun)
    as (mask & _ & Hcover & _ & _ & _ & Hd).
  split.
  - intros Hz Ho.
    destruct (distinct_metrics_original _ _ _ _ _ _ _ _ Ho Hcover Hd)
      as (j & _ & _ & _ & _ & ->).
    destruct (Hyes Ho) as (Hu & _).
    assert (unique_missing_count st = 0%nat) as -> by lia.
    apply py_round_zero_share.
  - intros Hz.
    assert (unique_missing_count st = 0%nat) as Hu by lia.
    destruct (decide ("Original" ∈ columns m)) as [Ho|Ho].
    + destruct (distinct_metrics_original _ _ _ _ _ _ _ _ Ho Hcover Hd)
        as (j & _ & _ & _ & _ & ->).
      rewrite Hu. apply py_round_zero_share.
    + destruct (distinct_metrics_no_original _ _ _ _ _ _ _ _ Ho Hd)
        as (_ & _ & _ & ->).
      assert (missing_count st = 0%nat) as -> by lia.
      apply py_round_zero_share.
Qed.

(** X5: with an [Original] column, [unique_missing_examples] has exactly
    min(20, [unique_missing_count]) entries: up to 20 distinct missing values
    every one of them is listed. *)
Theorem examples_length_exact (data_df ref_df : DataFrame)
    (params : gmap string pyval) (clock : Clock) :
  ∃ match_df stats clock',
    run data_df ref_df params clock = Ok (match_df, stats, clock')
    ∧ ("Original" ∈ columns match_df →
       length (unique_missing_examples stats)
       = 20 `min` unique_missing_count stats).
Proof.
  apply (run_always (λ m st _,
    "Original" ∈ columns m →
    length (unique_missing_examples st) = 20 `min` unique_missing_count st)).
  intros m st c' Hrun Ho.
  destruct (run_unique_counts _ _ _ _ _ _ _ Hrun) as (_ & Hyes & _).
  by destruct (Hyes Ho) as (_ & _ & ? & _).
Qed.

(** X6: the counts listed in [unique_missing_examples] belong to different
    rows: their sum is at most [missing_count]. *)
Theorem examples_counts_within_missing (data_df ref_df : DataFrame)
    (params : gmap string pyval) (clock : Clock) :
  ∃ match_df stats clock',
    run data_df ref_df params clock = Ok (match_df, stats, clock')
    ∧ sum_list_with snd (unique_missing_examples stats) ≤ missing_count stats.
Proof.
  apply (run_always (λ _ st _,
    sum_list_with snd (unique_missing_examples st) ≤ missing_count st)).
  intros m st c' Hrun.
  destruct (run_unique_counts _ _ _ _ _ _ _ Hrun) as (_ & Hyes & Hno).
  destruct (decide ("Original" ∈ columns m)) as [Ho|Ho].
  - by destruct (Hyes Ho) as (_ & _ & _ & ?).
  - destruct (Hno Ho) as (_ & _ & ->). simpl. lia.
Qed.

End Invariants.

(** ** Edge cases, the reported column, the clock and unreadable parameters *)

Lemma find_mapped_column_prefix (df : DataFrame) (c : string) :
  _find_mapped_column df = Some c → PyStr.startswith c "Mapped_to" = true.
Proof.
  unfold _find_mapped_column. case_bool_decide as Hm.
  - by intros [= <-].
  - intros Hf%find_some. tauto.
Qed.

Lemma find_mapped_column_none (df : DataFrame) :
  _find_mapped_column df = None
  ↔ Forall (λ x, PyStr.startswith x "Mapped_to" = false) (columns df).
Proof.
  split.
  - unfold _find_mapped_column. case_bool_decide as Hm; [done|].
    intros Hf. apply Forall_forall. intros x Hx%list_elem_of_In.
    exact (find_none _ _ Hf x Hx).
  - intros Hall. unfold _find_mapped_column. case_bool_decide as Hm.
    + rewrite Forall_forall in Hall. by specialize (Hall _ Hm).
    + by apply find_nowhere.
Qed.

Lemma py_round_nonneg (x : Q) (n : nat) : (0 <= x)%Q → (0 <= py_round x n)%Q.
Proof.
  intros Hx.
  destruct (py_round_between 0 (Qceiling x) x n) as [Hlo _];
    [done|apply Qle_ceiling|done].
Qed.

Section Edges.

Context (py_float : pyval → result Q) (py_int : pyval → result Z)
        (preprocess_data : list string → DataFrame)
        (get_matches : DataFrame → list string → Q → Z → bool → DataFrame).

Local Abbreviation run :=
  (process_df py_float py_int preprocess_data get_matches).
Local Abbreviation matcher := (add_substance preprocess_data get_matches).

(** X7: [total_rows] is zero exactly when neither the subject dataset nor the
    match table has a row, and then every count and percentage is zero and
    no example is listed. *)
Theorem empty_input_zero_stats (data_df ref_df : DataFrame)
    (params : gmap string pyval) (clock : Clock) :
  ∃ match_df stats clock',
    run data_df ref_df params clock = Ok (match_df, stats, clock')
    ∧ (total_rows stats = 0%nat
       ↔ df_len data_df = 0%nat ∧ df_len match_df = 0%nat)
    ∧ (total_rows stats = 0%nat →
       missing_count stats = 0%nat
       ∧ missing_pct stats = 0%Q
       ∧ unique_total_values stats = 0%nat
       ∧ unique_missing_count stats = 0%nat
       ∧ unique_missing_pct stats = 0%Q
       ∧ unique_missing_examples stats = []).
Proof.
  apply (run_always py_float py_int preprocess_data get_matches (λ m st _,
    (total_rows st = 0%nat ↔ df_len data_df = 0%nat ∧ df_len m = 0%nat)
    ∧ (total_rows st = 0%nat →
       missing_count st = 0%nat
       ∧ missing_pct st = 0%Q
       ∧ unique_total_values st = 0%nat
       ∧ unique_missing_count st = 0%nat
       ∧ unique_missing_pct st = 0%Q
       ∧ unique_missing_examples st = []))).
  intros m st c' Hrun.
  destruct (run_missing_le _ _ _ _ _ _ _ _ _ _ _ Hrun) as (Hle & _).
  destruct (run_unique_counts _ _ _ _ _ _ _ _ _ _ _ Hrun) as (Hmc & Hyes & Hno).
  destruct (run_mask _ _ _ _ _ _ _ _ _ _ _ Hrun)
    as (mask & _ & Hcover & Hlen & _ & _ & Hd).
  destruct (process_df_steps _ _ _ _ _ _ _ _ _ _ _ Hrun).
  split.
  { rewrite step_total, concat_axis1_len. lia. }
  intros Hz.
  assert (missing_count st = 0%nat) as Hm0 by lia.
  assert (unique_missing_count st = 0%nat) as Hu0 by lia.
  split; [done|]. split.
  { rewrite Hz in step_pct. by injection step_pct as <-. }
  destruct (decide ("Original" ∈ columns m)) as [Ho|Ho].
  - destruct (Hyes Ho) as (_ & Hut & Hex & _).
    destruct (distinct_metrics_original _ _ _ _ _ _ _ _ Ho Hcover Hd)
      as (j & _ & _ & _ & _ & Hump).
    assert (unique_total_values st = 0%nat) as Hut0 by lia.
    split; [done|]. split; [done|]. split.
    + rewrite Hump, Hu0. apply py_round_zero_share.
    + rewrite Hu0 in Hex. by apply nil_length_inv.
  - destruct (Hno Ho) as (Hut & _ & Hex).
    destruct (distinct_metrics_no_original _ _ _ _ _ _ _ _ Ho Hd)
      as (_ & _ & _ & Hump).
    split; [done|]. split; [done|]. split; [|done].
    rewrite Hump, Hm0. apply py_round_zero_share.
Qed.

(** X8: the column that [process_df] reports as mapped is one of the output
    columns and its name begins with Mapped_to; it reports none exactly when
    no output column begins with Mapped_to. *)
Theorem reported_mapped_column (data_df ref_df : DataFrame)
    (params : gmap string pyval) (clock : Clock) :
  ∃ match_df stats clock',
    run data_df ref_df params clock = Ok (match_df, stats, clock')
    ∧ columns_out stats = columns match_df
    ∧ (∀ c, mapped_column stats = Some c →
         c ∈ columns_out stats ∧ PyStr.startswith c "Mapped_to" = true)
    ∧ (mapped_column stats = None
       ↔ Forall (λ x, PyStr.startswith x "Mapped_to" = false)
           (columns_out stats)).
Proof.
  apply (run_always py_float py_int preprocess_data get_matches (λ m st _,
    columns_out st = columns m
    ∧ (∀ c, mapped_column st = Some c →
         c ∈ columns_out st ∧ PyStr.startswith c "Mapped_to" = true)
    ∧ (mapped_column st = None
       ↔ Forall (λ x, PyStr.startswith x "Mapped_to" = false)
           (columns_out st)))).
  intros m st c' Hrun.
  destruct (process_df_steps _ _ _ _ _ _ _ _ _ _ _ Hrun).
  rewrite step_columns, step_mapped. split; [done|]. split.
  - intros c Hc. split.
    + by apply find_mapped_column_elem.
    + by apply (find_mapped_column_prefix m).
  - apply find_mapped_column_none.
Qed.

(** X9: a call reads the clock exactly twice, and under a clock that does
    not run backwards between the two readings [processing_seconds] is not
    negative. *)
Theorem processing_seconds_nonneg (data_df ref_df : DataFrame)
    (params : gmap string pyval) (clock : Clock) :
  (clock 0%nat <= clock 1%nat)%Q →
  ∃ match_df stats clock',
    run data_df ref_df params clock = Ok (match_df, stats, clock')
    ∧ (0 <= processing_seconds stats)%Q
    ∧ ∀ n, clock' n = clock (S (S n)).
Proof.
  intros Hmono.
  apply (run_always py_float py_int preprocess_data get_matches (λ _ st c',
    (0 <= processing_seconds st)%Q ∧ ∀ n, c' n = clock (S (S n)))).
  intros m st c' Hrun.
  destruct (process_df_steps _ _ _ _ _ _ _ _ _ _ _ Hrun).
  rewrite step_seconds, step_clock. split; [|done].
  apply py_round_nonneg. lra.
Qed.

(** X10: a threshold that [float] rejects and a [max_per_match_id] that
    [int] rejects do not fail the call: the matcher is called with 0.85 and
    2 in their place. *)
Theorem unreadable_numbers_fall_back (data_df ref_df : DataFrame)
    (params : gmap string pyval) (clock : Clock) (v w : pyval) (e e' : exn) :
  params !! "threshold" = Some v → py_float v = Raise e →
  params !! "max_per_match_id" = Some w → py_int w = Raise e' →
  ∃ col_series ref_series stats clock',
    run data_df ref_df params clock
    = Ok (matcher col_series ref_series (85 # 100)%Q 2%Z
            (param_only_first_match params),
          stats, clock').
Proof.
  intros Hv Hfloat Hw Hint.
  destruct (process_df_returns py_float py_int preprocess_data get_matches
              data_df ref_df params clock) as (m & st & c' & Hrun).
  destruct (process_df_steps _ _ _ _ _ _ _ _ _ _ _ Hrun).
  exists col_series, ref_series, st, c'.
  rewrite Hrun, step_match. unfold param_threshold, param_max_per_match_id.
  by rewrite Hv, Hfloat, Hw, Hint.
Qed.

End Edges.

(** ** Text: stripping and lower-casing *)

Lemma append_nil_l (s : string) : "" +:+ s = s.
Proof. reflexivity. Qed.

Lemma append_cons (x : ascii) (a b : string) :
  String x a +:+ b = String x (a +:+ b).
Proof. reflexivity. Qed.

Lemma append_nil_r (s : string) : s +:+ "" = s.
Proof.
  induction s as [|c s IH]; [done|]. by rewrite append_cons, IH.
Qed.

Lemma append_assoc (a b c : string) : (a +:+ b) +:+ c = a +:+ (b +:+ c).
Proof.
  induction a as [|x a IH]; [done|]. by rewrite !append_cons, IH.
Qed.

Lemma rev_app_spec (s acc : string) :
  String.rev_app s acc = String.rev s +:+ acc.
Proof.
  unfold String.rev. revert acc.
  induction s as [|c s IH]; intros acc; simpl; [done|].
  rewrite (IH (String c acc)), (IH (String c "")).
  by rewrite append_assoc.
Qed.

Lemma rev_cons (x : ascii) (s : string) :
  String.rev (String x s) = String.rev s +:+ String x "".
Proof. unfold String.rev at 1. simpl. apply rev_app_spec. Qed.

Lemma rev_append (a b : string) :
  String.rev (a +:+ b) = String.rev b +:+ String.rev a.
Proof.
  induction a as [|x a IH].
  - by rewrite append_nil_l, append_nil_r.
  - rewrite append_cons, !rev_cons, IH. by rewrite append_assoc.
Qed.

Lemma blank_append (a b : string) : blank (a +:+ b) = blank a && blank b.
Proof.
  induction a as [|x a IH]; [done|].
  rewrite append_cons. simpl. rewrite IH. by rewrite andb_assoc.
Qed.

Lemma blank_rev (s : string) : blank (String.rev s) = blank s.
Proof.
  induction s as [|x s IH]; [done|].
  rewrite rev_cons, blank_append, IH. simpl.
  rewrite andb_true_r. apply andb_comm.
Qed.

Lemma lstrip_blank_append (w s : string) :
  blank w = true → PyStr.lstrip (w +:+ s) = PyStr.lstrip s.
Proof.
  induction w as [|x w IH]; [done|].
  rewrite append_cons. simpl.
  intros [Hx Hw]%andb_true_iff. rewrite Hx. by apply IH.
Qed.

Lemma lstrip_blank (w : string) : blank w = true → PyStr.lstrip w = "".
Proof.
  intros Hw. rewrite <- (append_nil_r w). by rewrite lstrip_blank_append.
Qed.

Lemma lstrip_append_blank (s w : string) :
  blank w = true →
  PyStr.lstrip (s +:+ w) = "" ∧ PyStr.lstrip s = ""
  ∨ PyStr.lstrip (s +:+ w) = PyStr.lstrip s +:+ w.
Proof.
  intros Hw. induction s as [|x s IH].
  - left. split; [by apply lstrip_blank|done].
  - rewrite append_cons. simpl.
    destruct (PyStr.isspace x); [done|]. by right.
Qed.

Lemma rstrip_append_blank (s w : string) :
  blank w = true → PyStr.rstrip (s +:+ w) = PyStr.rstrip s.
Proof.
  intros Hw. unfold PyStr.rstrip.
  rewrite rev_append, lstrip_blank_append; [done|]. by rewrite blank_rev.
Qed.

(** Whitespace around a text does not change what [strip] leaves of it. *)
Lemma strip_padded (w1 s w2 : string) :
  blank w1 = true → blank w2 = true →
  PyStr.strip (w1 +:+ s +:+ w2) = PyStr.strip s.
Proof.
  intros H1 H2. unfold PyStr.strip.
  rewrite lstrip_blank_append by done.
  destruct (lstrip_append_blank s w2 H2) as [[-> ->]| ->]; [done|].
  by apply rstrip_append_blank.
Qed.

Lemma isspace_lower_char (c : ascii) :
  PyStr.isspace (PyStr.lower_char c) = PyStr.isspace c.
Proof. by destruct c as [[] [] [] [] [] [] [] []]. Qed.

Lemma lower_char_idemp (c : ascii) :
  PyStr.lower_char (PyStr.lower_char c) = PyStr.lower_char c.
Proof. by destruct c as [[] [] [] [] [] [] [] []]. Qed.

Lemma lower_idemp (s : string) : PyStr.lower (PyStr.lower s) = PyStr.lower s.
Proof.
  induction s as [|c s IH]; simpl; [done|].
  by rewrite lower_char_idemp, IH.
Qed.

Lemma lower_append (a b : string) :
  PyStr.lower (a +:+ b) = PyStr.lower a +:+ PyStr.lower b.
Proof.
  induction a as [|x a IH]; [done|].
  rewrite append_cons. simpl. by rewrite append_cons, IH.
Qed.

Lemma lower_rev (s : string) :
  PyStr.lower (String.rev s) = String.rev (PyStr.lower s).
Proof.
  induction s as [|x s IH]; [done|].
  simpl PyStr.lower at 2. by rewrite !rev_cons, lower_append, IH.
Qed.

Lemma lower_lstrip (s : string) :
  PyStr.lower (PyStr.lstrip s) = PyStr.lstrip (PyStr.lower s).
Proof.
  induction s as [|x s IH]; simpl; [done|].
  rewrite isspace_lower_char. by destruct (PyStr.isspace x).
Qed.

(** Lower-casing and stripping can be done in either order. *)
Lemma lower_strip (s : string) :
  PyStr.lower (PyStr.strip s) = PyStr.strip (PyStr.lower s).
Proof.
  unfold PyStr.strip, PyStr.rstrip.
  by rewrite lower_rev, lower_lstrip, lower_rev, lower_lstrip.
Qed.

(** X14: on text, [_parse_bool] does not depend on whitespace around the
    text, on the case of its letters, or on the default; and the text of a
    boolean, [str(b)], parses back to [b]. *)
Theorem parse_bool_ignores_padding_and_case (s : string) (default : bool) :
  (∀ w1 w2, blank w1 = true → blank w2 = true →
     _parse_bool (PStr (w1 +:+ s +:+ w2)) default = _parse_bool (PStr s) default)
  ∧ (∀ t, PyStr.lower t = PyStr.lower s →
       _parse_bool (PStr t) default = _parse_bool (PStr s) default)
  ∧ (∀ d, _parse_bool (PStr s) d = _parse_bool (PStr s) default)
  ∧ (∀ b, _parse_bool (PStr (py_str (PBool b))) default = b).
Proof.
  split; [|split; [|split]].
  - intros w1 w2 H1 H2. simpl. by rewrite strip_padded.
  - intros t Ht. simpl. by rewrite !lower_strip, Ht.
  - done.
  - by intros [].
Qed.

(** ** The web layer in front of [process_df] *)

Lemma process_params_lookup (form : gmap string string) :
  App.process_params form !! "substance_col"
  = Some (PStr (App.str_or
                  (PyStr.strip (App.form_get form "substance_col" "Bezeichnung"))
                  "Bezeichnung"))
  ∧ App.process_params form !! "ref_substance_col"
    = Some (PStr (App.str_or
                    (PyStr.strip (App.form_get form "ref_substance_col" "Substanz"))
                    "Substanz"))
  ∧ App.process_params form !! "threshold"
    = Some (PStr (PyStr.strip (App.form_get form "threshold" "0.85")))
  ∧ App.process_params form !! "max_per_match_id"
    = Some (PStr (PyStr.strip (App.form_get form "max_per_match_id" "2")))
  ∧ App.process_params form !! "only_first_match"
    = Some (PStr (if form !! "only_first_match" is Some _
                  then "true" else "false")).
Proof.
  unfold App.process_params.
  repeat split; by repeat (rewrite lookup_insert_ne by done); rewrite lookup_insert_eq.
Qed.

Lemma str_or_nonempty (s d : string) : d ≠ "" → App.str_or s d ≠ "".
Proof. intros Hd. unfold App.str_or. by case_bool_decide. Qed.

Lemma py_or_text (s : string) (v : pyval) : s ≠ "" → py_or (PStr s) v = PStr s.
Proof.
  intros Hs. unfold py_or. simpl. by rewrite bool_decide_eq_false_2.
Qed.

Section Web.

Context (py_float : pyval → result Q) (py_int : pyval → result Z)
        (preprocess_data : list string → DataFrame)
        (get_matches : DataFrame → list string → Q → Z → bool → DataFrame).

Local Abbreviation run :=
  (process_df py_float py_int preprocess_data get_matches).
Local Abbreviation matcher := (add_substance preprocess_data get_matches).

(** X11: through the form of the web page, the matcher is called with
    [only_first_match] true exactly when the form carries a field of that
    name, whatever the field holds. *)
Theorem web_only_first_match (form : gmap string string)
    (data_df ref_df : DataFrame) (clock : Clock) :
  param_only_first_match (App.process_params form)
  = bool_decide (is_Some (form !! "only_first_match"))
  ∧ ∃ col_series ref_series stats clock',
      run data_df ref_df (App.process_params form) clock
      = Ok (matcher col_series ref_series
              (param_threshold py_float (App.process_params form))
              (param_max_per_match_id py_int (App.process_params form))
              (bool_decide (is_Some (form !! "only_first_match"))),
            stats, clock').
Proof.
  assert (param_only_first_match (App.process_params form)
          = bool_decide (is_Some (form !! "only_first_match"))) as Hflag.
  { unfold param_only_first_match, dict_get.
    destruct (process_params_lookup form) as (_ & _ & _ & _ & ->).
    by destruct (form !! "only_first_match"). }
  split; [done|].
  destruct (process_df_returns py_float py_int preprocess_data get_matches
              data_df ref_df (App.process_params form) clock)
    as (m & st & c' & Hrun).
  destruct (process_df_steps _ _ _ _ _ _ _ _ _ _ _ Hrun).
  exists col_series, ref_series, st, c'.
  by rewrite Hrun, step_match, Hflag.
Qed.

(** X12: through the form of the web page, the subject column that
    [process_df] selects is the stripped text of the field [substance_col],
    and [Bezeichnung] when the field is absent or blank; the reference column
    is the stripped text of [ref_substance_col], and [Substanz] when that is
    absent or blank.  Neither is ever empty. *)
Theorem web_column_names (form : gmap string string) :
  ∃ col ref,
    param_substance_col (App.process_params form) = PStr col
    ∧ param_ref_substance_col (App.process_params form) = PStr ref
    ∧ col ≠ "" ∧ ref ≠ ""
    ∧ (form !! "substance_col" = None → col = "Bezeichnung")
    ∧ (form !! "ref_substance_col" = None → ref = "Substanz")
    ∧ (∀ v, form !! "substance_col" = Some v →
         col = if bool_decide (PyStr.strip v = "") then "Bezeichnung"
               else PyStr.strip v)
    ∧ (∀ v, form !! "ref_substance_col" = Some v →
         ref = if bool_decide (PyStr.strip v = "") then "Substanz"
               else PyStr.strip v).
Proof.
  destruct (process_params_lookup form) as (Hcol & Href & _).
  eexists _, _. unfold param_substance_col, param_ref_substance_col, dict_get.
  rewrite Hcol, Href. simpl.
  split; [by apply py_or_text, str_or_nonempty|].
  split; [by apply py_or_text, str_or_nonempty|].
  split; [by apply str_or_nonempty|]. split; [by apply str_or_nonempty|].
  unfold App.form_get, App.str_or.
  split; [by intros ->|]. split; [by intros ->|].
  split; by intros v ->.
Qed.

(** X13: the chart drawn from the statistics of a call has two bars, found
    and missing, neither negative, that add up to [total_rows], and both lie
    below the upper end of the y axis. *)
Theorem chart_bars (data_df ref_df : DataFrame)
    (params : gmap string pyval) (clock : Clock) :
  ∃ match_df stats clock' found missing,
    run data_df ref_df params clock = Ok (match_df, stats, clock')
    ∧ App.chart_values stats = [found; missing]
    ∧ (0 ≤ found)%Z ∧ (0 ≤ missing)%Z
    ∧ (found + missing)%Z = Z.of_nat (total_rows stats)
    ∧ (inject_Z found < App.chart_ylim (App.chart_values stats))%Q
    ∧ (inject_Z missing < App.chart_ylim (App.chart_values stats))%Q.
Proof.
  destruct (process_df_returns py_float py_int preprocess_data get_matches
              data_df ref_df params clock) as (m & st & c' & Hrun).
  destruct (run_missing_le _ _ _ _ _ _ _ _ _ _ _ Hrun) as (Hle & _).
  exists m, st, c', (Z.of_nat (total_rows st) - Z.of_nat (missing_count st))%Z,
    (Z.of_nat (missing_count st)).
  split; [done|]. split; [done|]. split; [lia|]. split; [lia|].
  split; [lia|].
  unfold App.chart_ylim, App.chart_values, App.chart_ymax. simpl.
  set (found := (Z.of_nat (total_rows st) - Z.of_nat (missing_count st))%Z).
  set (missing := Z.of_nat (missing_count st)).
  assert (0 ≤ found)%Z as Hf by (unfold found; lia).
  assert (0 ≤ missing)%Z as Hm by (unfold missing; lia).
  assert (inject_Z found <= inject_Z (Z.max found missing))%Q as H1
    by (rewrite <- Zle_Qle; lia).
  assert (inject_Z missing <= inject_Z (Z.max found missing))%Q as H2
    by (rewrite <- Zle_Qle; lia).
  assert (0 <= inject_Z (Z.max found missing))%Q as H0.
  { change 0%Q with (inject_Z 0). rewrite <- Zle_Qle. lia. }
  split; lra.
Qed.

End Web.

(** ** Extremes, the texts handed to the matcher, and keys that are not read *)

Lemma py_round_full_share (n : nat) :
  (0 < n)%nat → py_round (of_nat n / of_nat n * 100) 2 = 100%Q.
Proof.
  intros Hn. rewrite (py_round_comp _ 100); [by vm_compute|].
  pose proof (of_nat_pos _ Hn). field. lra.
Qed.

Section Extremes.

Context (py_float : pyval → result Q) (py_int : pyval → result Z)
        (preprocess_data : list string → DataFrame)
        (get_matches : DataFrame → list string → Q → Z → bool → DataFrame).

Local Abbreviation run :=
  (process_df py_float py_int preprocess_data get_matches).
Local Abbreviation matcher := (add_substance preprocess_data get_matches).

(** X15: with no row missing [missing_pct] is 0.0, and with every counted
    row missing, which is the case whenever no mapped column is found and
    there is a row, it is 100.0. *)
Theorem missing_pct_extremes (data_df ref_df : DataFrame)
    (params : gmap string pyval) (clock : Clock) :
  ∃ match_df stats clock',
    run data_df ref_df params clock = Ok (match_df, stats, clock')
    ∧ (missing_count stats = 0%nat → missing_pct stats = 0%Q)
    ∧ (missing_count stats = total_rows stats → (0 < total_rows stats)%nat →
       missing_pct stats = 100%Q)
    ∧ (mapped_column stats = None → (0 < total_rows stats)%nat →
       missing_pct stats = 100%Q).
Proof.
  apply (run_always py_float py_int preprocess_data get_matches (λ _ st _,
    (missing_count st = 0%nat → missing_pct st = 0%Q)
    ∧ (missing_count st = total_rows st → (0 < total_rows st)%nat →
       missing_pct st = 100%Q)
    ∧ (mapped_column st = None → (0 < total_rows st)%nat →
       missing_pct st = 100%Q))).
  intros m st c' Hrun.
  destruct (run_missing_le _ _ _ _ _ _ _ _ _ _ _ Hrun) as (_ & _ & Hnone).
  destruct (process_df_steps _ _ _ _ _ _ _ _ _ _ _ Hrun).
  assert (missing_count st = total_rows st → (0 < total_rows st)%nat →
          missing_pct st = 100%Q) as Hfull.
  { intros Hall Hpos. unfold missing_pct_of in step_pct.
    rewrite (proj2 (Nat.ltb_lt _ _) Hpos) in step_pct.
    rewrite py_truediv_pos in step_pct by done.
    injection step_pct as <-. rewrite Hall. by apply py_round_full_share. }
  split; [|split; [done|]].
  - intros Hz. unfold missing_pct_of in step_pct. rewrite Hz in step_pct.
    destruct (0 <? total_rows st)%nat eqn:Hpos.
    + apply Nat.ltb_lt in Hpos. rewrite py_truediv_pos in step_pct by done.
      injection step_pct as <-. apply py_round_zero_share.
    + by injection step_pct as <-.
  - intros Hn. by apply Hfull, Hnone.
Qed.

(** X16: when the configured subject column exists, the matcher receives one
    text per subject row, the [str] of the cell; a null cell arrives as the
    text nan or None, not as an empty text. *)
Theorem subject_texts_rendered (data_df ref_df : DataFrame)
    (params : gmap string pyval) (clock : Clock) :
  ∃ col_series ref_series stats clock',
    run data_df ref_df params clock
    = Ok (matcher col_series ref_series (param_threshold py_float params)
            (param_max_per_match_id py_int params)
            (param_only_first_match params),
          stats, clock')
    ∧ (in_columns (param_substance_col params) data_df = true →
       ∃ j, index_of (py_str (param_substance_col params)) (columns data_df)
            = Some j
            ∧ ∀ i row, rows data_df !! i = Some row →
                col_series !! i = Some (py_str (cell j row))
                ∧ (isna (cell j row) = true →
                   col_series !! i = Some "nan" ∨ col_series !! i = Some "None")).
Proof.
  destruct (process_df_returns py_float py_int preprocess_data get_matches
              data_df ref_df params clock) as (m & st & c' & Hrun).
  destruct (process_df_steps _ _ _ _ _ _ _ _ _ _ _ Hrun).
  exists col_series, ref_series, st, c'.
  split; [by rewrite Hrun, step_match|].
  intros Hin. destruct (select_col_series_present _ _ Hin) as (j & Hj & Hsel).
  rewrite Hsel in step_col. injection step_col as <-.
  exists j. split; [done|]. intros i row Hrow.
  assert (astype_str (cell j <$> rows data_df) !! i
          = Some (py_str (cell j row))) as Hi.
  { unfold astype_str. by rewrite !list_lookup_fmap, Hrow. }
  split; [done|]. rewrite Hi.
  destruct (cell j row); simpl; try done; [by right|by left].
Qed.

(** X17: [process_df] reads five keys of [params] and nothing else: two
    dictionaries that agree on them give the same result. *)
Theorem other_keys_ignored (data_df ref_df : DataFrame)
    (params params' : gmap string pyval) (clock : Clock) :
  (∀ k, k ∈ keys_read → params !! k = params' !! k) →
  run data_df ref_df params clock = run data_df ref_df params' clock.
Proof.
  intros Hsame.
  assert (∀ k, k ∈ keys_read → params !! k = params' !! k) as Hk by done.
  unfold process_df, param_threshold, param_max_per_match_id,
    param_only_first_match, param_substance_col, param_ref_substance_col,
    dict_get.
  rewrite !(Hk "threshold"), !(Hk "max_per_match_id"),
    !(Hk "only_first_match"), !(Hk "substance_col"),
    !(Hk "ref_substance_col");
    try (unfold keys_read; repeat (first [by left|right])).
  done.
Qed.

End Extremes.

(** ** The further properties at concrete inputs *)

Example process_params_empty_form :
  App.process_params ∅
  = {[ "substance_col" := PStr "Bezeichnung";
       "ref_substance_col" := PStr "Substanz";
       "threshold" := PStr "0.85";
       "max_per_match_id" := PStr "2";
       "only_first_match" := PStr "false" ]}.
Proof. apply map_eq. intros k. vm_compute. reflexivity. Qed.

Example web_flag_examples :
  param_only_first_match (App.process_params ∅) = false
  ∧ param_only_first_match
      (App.process_params {[ "only_first_match" := "on" ]}) = true
  ∧ param_only_first_match
      (App.process_params {[ "only_first_match" := "false" ]}) = true.
Proof. vm_compute. by repeat split. Qed.

Example chart_example :
  App.chart_values
    {| total_rows := 4; missing_count := 1; missing_pct := 25;
       unique_total_values := 4; unique_missing_count := 1;
       unique_missing_pct := 25; processing_seconds := 0;
       columns_out := []; mapped_column := None;
       unique_missing_examples := [] |}
  = [3%Z; 1%Z]
  ∧ App.chart_ylim [3%Z; 1%Z] = (3 * (12 # 10) + 1)%Q.
Proof. by split. Qed.

(** X9 under a clock that ticks once a second. *)
Lemma processing_seconds_nonneg_witness :
  (Run.clock_from 0 1 0%nat <= Run.clock_from 0 1 1%nat)%Q
  ∧ ∃ match_df stats clock',
      Run.process_fixed Run.table_single Run.subject Run.reference ∅
        (Run.clock_from 0 1)
      = Ok (match_df, stats, clock')
      ∧ (0 <= processing_seconds stats)%Q
      ∧ ∀ n, clock' n = Run.clock_from 0 1 (S (S n)).
Proof.
  split; [vm_compute; discriminate|].
  apply (processing_seconds_nonneg Run.float_plain Run.int_plain
           Run.preprocess_plain (Run.fixed_matches Run.table_single)
           Run.subject Run.reference ∅ (Run.clock_from 0 1)).
  vm_compute. discriminate.
Defined.

(** X10 at a threshold and a [max_per_match_id] that are no numbers. *)
Lemma unreadable_numbers_fall_back_witness :
  let params : gmap string pyval :=
    {[ "threshold" := PStr "high"; "max_per_match_id" := PStr "two" ]} in
  params !! "threshold" = Some (PStr "high")
  ∧ Run.float_plain (PStr "high") = Raise ValueError
  ∧ params !! "max_per_match_id" = Some (PStr "two")
  ∧ Run.int_plain (PStr "two") = Raise ValueError
  ∧ ∃ col_series ref_series stats clock',
      process_df Run.float_plain Run.int_plain Run.preprocess_plain
        Run.echo_flag_matches Run.subject Run.reference params
        (Run.clock_from 0 1)
      = Ok (add_substance Run.preprocess_plain Run.echo_flag_matches
              col_series ref_series (85 # 100)%Q 2%Z
              (param_only_first_match params),
            stats, clock').
Proof.
  intros params.
  split; [reflexivity|]. split; [reflexivity|].
  split; [reflexivity|]. split; [reflexivity|].
  apply (unreadable_numbers_fall_back Run.float_plain Run.int_plain
           Run.preprocess_plain Run.echo_flag_matches Run.subject Run.reference
           params (Run.clock_from 0 1) (PStr "high") (PStr "two")
           ValueError ValueError); reflexivity.
Defined.

(** X17 at a dictionary with a key that is not read. *)
Lemma other_keys_ignored_witness :
  let params : gmap string pyval := {[ "threshold" := PStr "0.9" ]} in
  let params' : gmap string pyval := <["verbose" := PBool true]> params in
  (∀ k, k ∈ keys_read → params !! k = params' !! k)
  ∧ Run.process_fixed Run.table_single Run.subject Run.reference params
      (Run.clock_from 0 1)
    = Run.process_fixed Run.table_single Run.subject Run.reference params'
        (Run.clock_from 0 1).
Proof.
  intros params params'.
  assert (∀ k, k ∈ keys_read → params !! k = params' !! k) as Hsame.
  { intros k Hk. unfold keys_read in Hk.
    repeat (apply elem_of_cons in Hk as [->|Hk]; [reflexivity|]).
    by apply elem_of_nil in Hk. }
  split; [exact Hsame|].
  exact (other_keys_ignored Run.float_plain Run.int_plain Run.preprocess_plain
           (Run.fixed_matches Run.table_single) Run.subject Run.reference
           params params' (Run.clock_from 0 1) Hsame).
Defined.
